(** * Authentication routes of MediFlow AI: login, MFA, password reset, Google OAuth

    A shallow embedding of the Express router in [authRoutes] (login,
    verify-mfa, forgot-password, reset-password, setup-mfa, enable-mfa,
    disable-mfa, me, the Google strategy callback and the [authenticateToken]
    middleware), followed by the properties of the authentication core.

    Conventions of the embedding.
    - The [admin_users] table is a list of rows; every SQL statement of the
      source is one function on that list, so one statement is one atomic
      step of the store.  Statements always succeed (a failing store would
      throw into the handlers' [catch] and answer 500).
    - Instants are integers, milliseconds since the epoch, as [Date.now()]
      returns them.  One handler run is served at one instant [now]: every
      clock it reads ([new Date()], [Date.now()], SQL [NOW()], the clock of
      the JWT library) shows that instant.
    - A compact JWT is kept symbolic: its payload object and the key that
      signed it.  Verification under a key succeeds exactly for the tokens
      signed with that key.
    - bcrypt, SHA-256, TOTP and the string functions of the JS runtime are
      an interface ([Externals]); the handlers are generic in it. *)

From Stdlib Require Import ZArith String Ascii List Bool Lia.
Import ListNotations.

Open Scope string_scope.
Open Scope Z_scope.

(** ** JSON values, requests and responses *)

(** JSON values.  [JJwt payload key] is a string value: the compact
    serialisation of a JWT with that payload, signed with [key]. *)
#[local] Unset Elimination Schemes.

Inductive json : Type :=
| JNull
| JBool (b : bool)
| JNum (n : Z)
| JStr (s : string)
| JJwt (payload : list (string * json)) (key : string)
| JObj (fields : list (string * json)).

#[local] Set Elimination Schemes.

(** [o.k] on an object; [None] is [undefined]. *)
Fixpoint field (k : string) (o : list (string * json)) : option json :=
  match o with
  | [] => None
  | (k', v) :: rest => if String.eqb k' k then Some v else field k rest
  end.

(** JS truthiness of a value that may be [undefined]. *)
Definition truthy (v : option json) : bool :=
  match v with
  | None => false
  | Some JNull => false
  | Some (JBool b) => b
  | Some (JNum n) => negb (n =? 0)
  | Some (JStr s) => negb (String.eqb s "")
  | Some (JJwt _ _) => true
  | Some (JObj _) => true
  end.

(** Truthiness of a string that may be [null] or [undefined]. *)
Definition truthy_str (s : option string) : bool :=
  match s with
  | Some s => negb (String.eqb s "")
  | None => false
  end.

(** [x || 0] on a number that may be [null]. *)
Definition or0 (x : option Z) : Z :=
  match x with
  | Some n => n
  | None => 0
  end.

(** [s.split(sep)] for a one-character separator. *)
Fixpoint split_on (sep : ascii) (s : string) : list string :=
  match s with
  | EmptyString => [EmptyString]
  | String c r =>
      if Ascii.eqb c sep then EmptyString :: split_on sep r
      else match split_on sep r with
           | h :: t => String c h :: t
           | [] => [String c EmptyString]
           end
  end.

(** [xs.includes(x)] on an array of strings. *)
Definition includes (xs : list string) (x : string) : bool :=
  existsb (fun y => String.eqb y x) xs.

Record response : Type := mkResponse {
  status : Z;
  body : json
}.

(** [res.status(c).json(o)] and [res.json(o)] (status 200). *)
Definition res_status_json (c : Z) (o : list (string * json)) : response :=
  {| status := c; body := JObj o |}.

Definition res_json (o : list (string * json)) : response :=
  res_status_json 200 o.

(** The field [k] of a response body, [None] when the body has none. *)
Definition body_field (k : string) (r : response) : option json :=
  match body r with
  | JObj o => field k o
  | _ => None
  end.

(** ** Libraries the router calls *)

Class Externals : Type := {
  (** [String.prototype.toLowerCase] and [trim] *)
  toLowerCase : string -> string;
  trim : string -> string;
  (** [bcrypt.compare(data, hash)] *)
  bcrypt_compare : string -> string -> bool;
  (** [bcrypt.hash(data, rounds)], the fresh salt made explicit *)
  bcrypt_hash : string -> Z -> string -> string;
  (** [crypto.createHash('sha256').update(s).digest('hex')] *)
  sha256_hex : string -> string;
  (** [speakeasy.totp.verify({secret, encoding: 'base32', token, window})]
      evaluated at an instant *)
  totp_verify : string -> string -> Z -> Z -> bool
}.

(** ** The credential store: table [admin_users] *)

Record admin_user : Type := mkUser {
  id : string;
  email : string;
  name : string;
  password_hash : string;
  mfa_enabled : bool;
  mfa_secret : option string;
  mfa_secret_temp : option string;
  failed_login_attempts : option Z;
  locked_until : option Z;
  reset_token : option string;
  reset_token_expiry : option Z;
  created_at : option Z;
  last_login : option Z;
  password_changed_at : option Z
}.

Definition table : Type := list admin_user.

(** [SELECT * FROM admin_users WHERE p], then [result.rows[0]]. *)
Definition select_where (p : admin_user -> bool) (db : table) : list admin_user :=
  filter p db.

Definition rows0 (rows : list admin_user) : option admin_user := hd_error rows.

(** [UPDATE admin_users SET ... WHERE p]. *)
Definition update_where (p : admin_user -> bool) (set : admin_user -> admin_user)
  (db : table) : table :=
  map (fun r => if p r then set r else r) db.

(** [id = $1] with a parameter taken from a token payload: ids are text, and
    the payloads minted here carry the id as a string; anything else
    matches no row. *)
Definition id_is (param : option json) (r : admin_user) : bool :=
  match param with
  | Some (JStr s) => String.eqb (id r) s
  | _ => false
  end.

(** [SELECT COUNT( * ) FROM admin_users]. *)
Definition count_users (db : table) : Z := Z.of_nat (length db).

(** ** Tokens *)

Inductive jwt_error : Type :=
| JsonWebTokenError
| TokenExpiredError.

(** [jwt.sign(payload, secret, { expiresIn })]: the library stamps [iat] and
    [exp], both in seconds. *)
Definition jwt_sign (payload : list (string * json)) (secret : string)
  (expiresIn : Z) (now : Z) : json :=
  let iat := now / 1000 in
  JJwt (payload ++ [("iat", JNum iat); ("exp", JNum (iat + expiresIn))]) secret.

(** [jwt.verify(token, secret)]: the token must be a well-formed JWT signed
    with [secret]; a token whose [exp] is not after the clock is expired. *)
Definition jwt_verify (token : json) (secret : string) (now : Z)
  : jwt_error + list (string * json) :=
  match token with
  | JJwt payload key =>
      if negb (String.eqb key secret) then inl JsonWebTokenError
      else match field "exp" payload with
           | Some (JNum e) =>
               if now / 1000 >=? e then inl TokenExpiredError else inr payload
           | Some _ => inl JsonWebTokenError
           | None => inr payload
           end
  | _ => inl JsonWebTokenError
  end.

(** ** A concrete deployment

    One instance of the library interface and a few rows, on which the
    handlers can be run.  The instance is small on purpose: ASCII case
    folding, a bcrypt and a SHA-256 that only tag their input, and a TOTP
    that accepts one code per secret. *)

Module Sample.

Definition lower_ascii (c : ascii) : ascii :=
  let n := nat_of_ascii c in
  if ((65 <=? n) && (n <=? 90))%nat then ascii_of_nat (n + 32) else c.

Fixpoint lower (s : string) : string :=
  match s with
  | EmptyString => EmptyString
  | String c r => String (lower_ascii c) (lower r)
  end.

Fixpoint trim_left (s : string) : string :=
  match s with
  | String c r => if Ascii.eqb c " " then trim_left r else s
  | EmptyString => EmptyString
  end.

Fixpoint trim_right (s : string) : string :=
  match s with
  | EmptyString => EmptyString
  | String c r =>
      let r' := trim_right r in
      if Ascii.eqb c " " && String.eqb r' "" then EmptyString else String c r'
  end.

Definition ext : Externals := {|
  toLowerCase := lower;
  trim := fun s => trim_right (trim_left s);
  bcrypt_compare := fun data hash => String.eqb hash (String.append "bcrypt$" data);
  bcrypt_hash := fun data _ _ => String.append "bcrypt$" data;
  sha256_hex := fun s => String.append "sha256$" s;
  totp_verify := fun secret token _ _ => String.eqb token (String.append "otp-" secret)
|}.

Definition secret : string := "signing-key".

(** An account with password [correct horse battery], no MFA, four failed
    logins so far. *)
Definition alice : admin_user :=
  mkUser "u1" "alice@clinic.org" "Alice" "bcrypt$correct horse battery" false None None
    (Some 4) None None None (Some 1000) None None.

(** The same account, locked until instant 2000000. *)
Definition alice_locked : admin_user :=
  mkUser "u1" "alice@clinic.org" "Alice" "bcrypt$correct horse battery" false None None
    (Some 5) (Some 2000000) None None (Some 1000) None None.

(** The same account with three failed logins and a reset token
    [r3s3t] valid until instant 5000000. *)
Definition alice_resetting : admin_user :=
  mkUser "u1" "alice@clinic.org" "Alice" "bcrypt$correct horse battery" false None None
    (Some 3) None (Some "sha256$r3s3t") (Some 5000000) (Some 1000) None None.

(** An account with MFA enabled under secret [JBSWY3DP]. *)
Definition carol : admin_user :=
  mkUser "u3" "carol@clinic.org" "Carol" "bcrypt$tr0ub4dor and three" true (Some "JBSWY3DP") None
    (Some 0) None None None (Some 1000) None None.

(** An account whose MFA flag is set while no secret is stored. *)
Definition dave : admin_user :=
  mkUser "u4" "dave@clinic.org" "Dave" "bcrypt$hunter2 hunter2" true None None
    (Some 0) None None None (Some 1000) None None.

(** An account in the middle of MFA enrollment: pending secret [KRSXG5A]. *)
Definition erin : admin_user :=
  mkUser "u5" "erin@clinic.org" "Erin" "bcrypt$0pen sesame 0pen" false None (Some "KRSXG5A")
    (Some 0) None None None (Some 1000) None None.

Definition frank : admin_user :=
  mkUser "u6" "frank@clinic.org" "Frank" "bcrypt$not a password" false None None
    (Some 0) None None None (Some 1000) None None.

(** Five accounts: the table is at its cap. *)
Definition full_table : table := [alice; carol; dave; erin; frank].

Definition allowed : option string := Some "Grace@clinic.org, carol@clinic.org".

Definition defaults : admin_user :=
  mkUser "" "" "" "" false None None (Some 0) None None None None None None.

End Sample.

(** ** The router *)

Section Router.

Context `{Ext : Externals}.

(** [process.env.JWT_SECRET] (or its default), fixed at start-up. *)
Variable JWT_SECRET : string.

(** [process.env.GOOGLE_ALLOWED_EMAILS], [None] when not set. *)
Variable GOOGLE_ALLOWED_EMAILS : option string.

(** The table's definition is not part of the sources: [column_defaults]
    holds, column by column, what a column not named by an INSERT receives. *)
Variable column_defaults : admin_user.

Definition JWT_EXPIRES_IN : Z := 8 * 60 * 60.

Definition generateToken (userId email : string) (now : Z) : json :=
  jwt_sign [("userId", JStr userId); ("email", JStr email); ("role", JStr "admin")]
    JWT_SECRET JWT_EXPIRES_IN now.

Definition generateTempToken (userId : string) (now : Z) : json :=
  jwt_sign [("userId", JStr userId); ("temp", JBool true)]
    JWT_SECRET (5 * 60) now.

Definition internal_server_error : response :=
  res_status_json 500 [("error", JStr "Internal server error")].

(** The middleware.  [authHeader] is the Authorization header as
    [authHeader.split(' ')] sees it, [None] when the header is absent.
    [inr user] is [next()] with [req.user = user]. *)
Definition authenticateToken (now : Z) (authHeader : option (list json))
  : response + list (string * json) :=
  let token := match authHeader with
               | Some pieces => nth_error pieces 1
               | None => None
               end in
  match token with
  | Some t =>
      if negb (truthy token)
      then inl (res_status_json 401 [("error", JStr "Access token required")])
      else match jwt_verify t JWT_SECRET now with
           | inl _ => inl (res_status_json 403 [("error", JStr "Invalid or expired token")])
           | inr user => inr user
           end
  | None => inl (res_status_json 401 [("error", JStr "Access token required")])
  end.

(** A route registered as [router.METHOD(path, authenticateToken, handler)]. *)
Definition guarded (now : Z) (authHeader : option (list json))
  (handler : list (string * json) -> table -> table * response)
  (db : table) : table * response :=
  match authenticateToken now authHeader with
  | inl r => (db, r)
  | inr user => handler user db
  end.

Definition user_summary (user : admin_user) : json :=
  JObj [("id", JStr (id user)); ("email", JStr (email user)); ("name", JStr (name user))].

(** [user.locked_until && new Date(user.locked_until) > new Date()] *)
Definition is_locked (user : admin_user) (now : Z) : bool :=
  match locked_until user with
  | Some t => now <? t
  | None => false
  end.

(** The two UPDATE statements of the login route. *)
Definition set_failed (failedAttempts : Z) (lockUntil : option Z) (r : admin_user)
  : admin_user :=
  mkUser (id r) (email r) (name r) (password_hash r) (mfa_enabled r) (mfa_secret r)
    (mfa_secret_temp r) (Some failedAttempts) lockUntil (reset_token r)
    (reset_token_expiry r) (created_at r) (last_login r) (password_changed_at r).

Definition set_login_ok (now : Z) (r : admin_user) : admin_user :=
  mkUser (id r) (email r) (name r) (password_hash r) (mfa_enabled r) (mfa_secret r)
    (mfa_secret_temp r) (Some 0) None (reset_token r)
    (reset_token_expiry r) (created_at r) (Some now) (password_changed_at r).

(** POST /api/auth/login.  The handler makes two round trips to the store:
    the SELECT of the row, and one UPDATE whose values it computes from the
    row it read.  [login_select] is the handler up to the first, answering
    at once where the source returns early; [login_update] is the rest. *)
Definition login_select (now : Z) (req_email req_password : option string) (db : table)
  : response + admin_user * string :=
  match req_email, req_password with
  | Some email_, Some password =>
      if negb (truthy_str req_email) || negb (truthy_str req_password)
      then inl (res_status_json 400 [("error", JStr "Email and password required")])
      else
        match rows0 (select_where (fun r => String.eqb (email r) (toLowerCase email_)) db) with
        | None => inl (res_status_json 401 [("error", JStr "Invalid email or password")])
        | Some user =>
            if is_locked user now
            then inl (res_status_json 423
                        [("error", JStr "Account temporarily locked due to multiple failed attempts. Try again later.")])
            else inr (user, password)
        end
  | _, _ => inl (res_status_json 400 [("error", JStr "Email and password required")])
  end.

Definition login_update (now : Z) (user : admin_user) (password : string) (db : table)
  : table * response :=
  if negb (bcrypt_compare password (password_hash user))
  then
    let failedAttempts := or0 (failed_login_attempts user) + 1 in
    let lockUntil := if failedAttempts >=? 5
                     then Some (now + 15 * 60 * 1000)
                     else None in
    (update_where (fun r => String.eqb (id r) (id user)) (set_failed failedAttempts lockUntil) db,
     res_status_json 401
       [("error", JStr "Invalid email or password");
        ("attemptsRemaining", JNum (Z.max 0 (5 - failedAttempts)))])
  else
    let db' := update_where (fun r => String.eqb (id r) (id user)) (set_login_ok now) db in
    if mfa_enabled user && truthy_str (mfa_secret user)
    then (db', res_json [("requiresMFA", JBool true);
                         ("tempToken", generateTempToken (id user) now)])
    else (db', res_json [("token", generateToken (id user) (email user) now);
                         ("user", user_summary user)]).

Definition login (now : Z) (req_email req_password : option string) (db : table)
  : table * response :=
  match login_select now req_email req_password db with
  | inl r => (db, r)
  | inr (user, password) => login_update now user password db
  end.

(** POST /api/auth/verify-mfa *)
Definition verify_mfa (now : Z) (tempToken : option json) (mfaCode : option string)
  (db : table) : table * response :=
  match tempToken, mfaCode with
  | Some tok, Some code =>
      if negb (truthy tempToken) || negb (truthy_str mfaCode)
      then (db, res_status_json 400 [("error", JStr "Temp token and MFA code required")])
      else
        match jwt_verify tok JWT_SECRET now with
        | inl _ => (db, internal_server_error)
        | inr decoded =>
            if negb (truthy (field "temp" decoded))
            then (db, res_status_json 401 [("error", JStr "Invalid token")])
            else
              match rows0 (select_where (id_is (field "userId" decoded)) db) with
              | None => (db, res_status_json 401 [("error", JStr "MFA not enabled for this user")])
              | Some user =>
                  match mfa_secret user with
                  | Some secret =>
                      if negb (mfa_enabled user) || negb (truthy_str (mfa_secret user))
                      then (db, res_status_json 401 [("error", JStr "MFA not enabled for this user")])
                      else if negb (totp_verify secret code 2 now)
                      then (db, res_status_json 401 [("error", JStr "Invalid MFA code")])
                      else (db, res_json [("token", generateToken (id user) (email user) now);
                                          ("user", user_summary user)])
                  | None => (db, res_status_json 401 [("error", JStr "MFA not enabled for this user")])
                  end
              end
        end
  | _, _ => (db, res_status_json 400 [("error", JStr "Temp token and MFA code required")])
  end.

Definition reset_requested_message : response :=
  res_json [("message", JStr "If an account exists with that email, password reset instructions have been sent.")].

Definition set_reset_token (hash : string) (expiry : Z) (r : admin_user) : admin_user :=
  mkUser (id r) (email r) (name r) (password_hash r) (mfa_enabled r) (mfa_secret r)
    (mfa_secret_temp r) (failed_login_attempts r) (locked_until r) (Some hash)
    (Some expiry) (created_at r) (last_login r) (password_changed_at r).

(** POST /api/auth/forgot-password; [resetToken] is the value of
    [crypto.randomBytes(32).toString('hex')]. *)
Definition forgot_password (now : Z) (resetToken : string) (req_email : option string)
  (db : table) : table * response :=
  match req_email with
  | Some email_ =>
      if negb (truthy_str req_email)
      then (db, res_status_json 400 [("error", JStr "Email required")])
      else
        match rows0 (select_where (fun r => String.eqb (email r) (toLowerCase email_)) db) with
        | None => (db, reset_requested_message)
        | Some user =>
            (update_where (fun r => String.eqb (id r) (id user))
               (set_reset_token (sha256_hex resetToken) (now + 60 * 60 * 1000)) db,
             reset_requested_message)
        end
  | None => (db, res_status_json 400 [("error", JStr "Email required")])
  end.

Definition set_new_password (passwordHash : string) (now : Z) (r : admin_user)
  : admin_user :=
  mkUser (id r) (email r) (name r) passwordHash (mfa_enabled r) (mfa_secret r)
    (mfa_secret_temp r) (failed_login_attempts r) (locked_until r) None
    None (created_at r) (last_login r) (Some now).

(** [reset_token = $1 AND reset_token_expiry > NOW()] *)
Definition has_valid_reset_token (tokenHash : string) (now : Z) (r : admin_user) : bool :=
  match reset_token r, reset_token_expiry r with
  | Some h, Some e => String.eqb h tokenHash && (now <? e)
  | _, _ => false
  end.

(** POST /api/auth/reset-password; [salt] is the salt bcrypt draws. *)
Definition reset_password (now : Z) (salt : string) (token newPassword : option string)
  (db : table) : table * response :=
  match token, newPassword with
  | Some token_, Some newPassword_ =>
      if negb (truthy_str token) || negb (truthy_str newPassword)
      then (db, res_status_json 400 [("error", JStr "Token and new password required")])
      else if Z.of_nat (String.length newPassword_) <? 12
      then (db, res_status_json 400 [("error", JStr "Password must be at least 12 characters long")])
      else
        let tokenHash := sha256_hex token_ in
        match rows0 (select_where (has_valid_reset_token tokenHash now) db) with
        | None => (db, res_status_json 401 [("error", JStr "Invalid or expired reset token")])
        | Some user =>
            let passwordHash := bcrypt_hash newPassword_ 12 salt in
            (update_where (fun r => String.eqb (id r) (id user))
               (set_new_password passwordHash now) db,
             res_json [("message", JStr "Password reset successful")])
        end
  | _, _ => (db, res_status_json 400 [("error", JStr "Token and new password required")])
  end.

Definition set_mfa_secret_temp (secret : string) (r : admin_user) : admin_user :=
  mkUser (id r) (email r) (name r) (password_hash r) (mfa_enabled r) (mfa_secret r)
    (Some secret) (failed_login_attempts r) (locked_until r) (reset_token r)
    (reset_token_expiry r) (created_at r) (last_login r) (password_changed_at r).

(** GET /api/auth/setup-mfa, behind [authenticateToken]; [secret_base32] is
    the secret [speakeasy.generateSecret] draws and [qrCodeUrl] the data URL
    [QRCode.toDataURL] renders for it. *)
Definition setup_mfa (secret_base32 qrCodeUrl : string) (user : list (string * json))
  (db : table) : table * response :=
  let userId := field "userId" user in
  match rows0 (select_where (id_is userId) db) with
  | None => (db, res_status_json 404 [("error", JStr "User not found")])
  | Some _ =>
      (update_where (id_is userId) (set_mfa_secret_temp secret_base32) db,
       res_json [("secret", JStr secret_base32); ("qrCode", JStr qrCodeUrl)])
  end.

(** [SET mfa_enabled = TRUE, mfa_secret = mfa_secret_temp, mfa_secret_temp = NULL] *)
Definition set_mfa_enabled (r : admin_user) : admin_user :=
  mkUser (id r) (email r) (name r) (password_hash r) true (mfa_secret_temp r)
    None (failed_login_attempts r) (locked_until r) (reset_token r)
    (reset_token_expiry r) (created_at r) (last_login r) (password_changed_at r).

(** POST /api/auth/enable-mfa, behind [authenticateToken]. *)
Definition enable_mfa (now : Z) (mfaCode : option string) (user : list (string * json))
  (db : table) : table * response :=
  let userId := field "userId" user in
  match mfaCode with
  | Some code =>
      if negb (truthy_str mfaCode)
      then (db, res_status_json 400 [("error", JStr "MFA code required")])
      else
        match rows0 (select_where (id_is userId) db) with
        | None => (db, res_status_json 400 [("error", JStr "MFA setup not initiated")])
        | Some row =>
            match mfa_secret_temp row with
            | Some secret =>
                if negb (truthy_str (mfa_secret_temp row))
                then (db, res_status_json 400 [("error", JStr "MFA setup not initiated")])
                else if negb (totp_verify secret code 2 now)
                then (db, res_status_json 401 [("error", JStr "Invalid MFA code")])
                else (update_where (id_is userId) set_mfa_enabled db,
                      res_json [("message", JStr "MFA enabled successfully")])
            | None => (db, res_status_json 400 [("error", JStr "MFA setup not initiated")])
            end
        end
  | None => (db, res_status_json 400 [("error", JStr "MFA code required")])
  end.

Definition set_mfa_disabled (r : admin_user) : admin_user :=
  mkUser (id r) (email r) (name r) (password_hash r) false None
    (mfa_secret_temp r) (failed_login_attempts r) (locked_until r) (reset_token r)
    (reset_token_expiry r) (created_at r) (last_login r) (password_changed_at r).

(** POST /api/auth/disable-mfa, behind [authenticateToken]. *)
Definition disable_mfa (password : option string) (user : list (string * json))
  (db : table) : table * response :=
  let userId := field "userId" user in
  match password with
  | Some password_ =>
      if negb (truthy_str password)
      then (db, res_status_json 400 [("error", JStr "Password required to disable MFA")])
      else
        match rows0 (select_where (id_is userId) db) with
        | None => (db, res_status_json 404 [("error", JStr "User not found")])
        | Some row =>
            if negb (bcrypt_compare password_ (password_hash row))
            then (db, res_status_json 401 [("error", JStr "Invalid password")])
            else (update_where (id_is userId) set_mfa_disabled db,
                  res_json [("message", JStr "MFA disabled successfully")])
        end
  | None => (db, res_status_json 400 [("error", JStr "Password required to disable MFA")])
  end.

Definition json_time (t : option Z) : json :=
  match t with
  | Some n => JNum n
  | None => JNull
  end.

(** GET /api/auth/me, behind [authenticateToken]. *)
Definition me (user : list (string * json)) (db : table) : table * response :=
  match rows0 (select_where (id_is (field "userId" user)) db) with
  | None => (db, res_status_json 404 [("error", JStr "User not found")])
  | Some row =>
      (db, res_json [("user", JObj [("id", JStr (id row)); ("email", JStr (email row));
                                    ("name", JStr (name row));
                                    ("mfa_enabled", JBool (mfa_enabled row));
                                    ("created_at", json_time (created_at row));
                                    ("last_login", json_time (last_login row))])])
  end.

(** The verify callback of the Google strategy ends in [done(err, user)]. *)
Inductive done_result : Type :=
| done_error (message : string)
| done_user (user : admin_user).

Record google_profile : Type := mkProfile {
  emails : list string;
  displayName : option string
}.

Definition allowedEmails : list string :=
  match GOOGLE_ALLOWED_EMAILS with
  | Some s => map (fun e => toLowerCase (trim e)) (split_on "," s)
  | None => []
  end.

Definition set_last_login (now : Z) (r : admin_user) : admin_user :=
  mkUser (id r) (email r) (name r) (password_hash r) (mfa_enabled r) (mfa_secret r)
    (mfa_secret_temp r) (failed_login_attempts r) (locked_until r) (reset_token r)
    (reset_token_expiry r) (created_at r) (Some now) (password_changed_at r).

(** The row the INSERT of the callback creates and returns. *)
Definition new_google_user (now : Z) (userId email_ name_ passwordHash : string)
  : admin_user :=
  mkUser userId email_ name_ passwordHash false (mfa_secret column_defaults)
    (mfa_secret_temp column_defaults) (failed_login_attempts column_defaults)
    (locked_until column_defaults) (reset_token column_defaults)
    (reset_token_expiry column_defaults) (Some now) (Some now)
    (password_changed_at column_defaults).

(** The verify callback; [userId] and [randomPassword] are the values of
    [crypto.randomBytes(..).toString('hex')] and [salt] the salt bcrypt draws. *)
Definition google_verify (now : Z) (userId randomPassword salt : string)
  (profile : google_profile) (db : table) : table * done_result :=
  match hd_error (emails profile) with
  | Some email_ =>
      if negb (truthy_str (Some email_))
      then (db, done_error "No email found in Google profile")
      else if Z.of_nat (length allowedEmails) =? 0
      then (db, done_error "Google OAuth whitelist not configured")
      else if negb (includes allowedEmails (toLowerCase email_))
      then (db, done_error "This Google account is not authorized to access MediFlow AI")
      else
        match rows0 (select_where (fun r => String.eqb (email r) (toLowerCase email_)) db) with
        | None =>
            let userCount := count_users db in
            if userCount >=? 5
            then (db, done_error "Maximum number of admin accounts reached")
            else
              let name_ := if truthy_str (displayName profile)
                           then match displayName profile with Some n => n | None => "" end
                           else hd "" (split_on "@" email_) in
              let user := new_google_user now userId (toLowerCase email_) name_
                            (bcrypt_hash randomPassword 12 salt) in
              ((db ++ [user])%list, done_user user)
        | Some user =>
            (update_where (fun r => String.eqb (id r) (id user)) (set_last_login now) db,
             done_user user)
        end
  | None => (db, done_error "No email found in Google profile")
  end.

(** *** Two logins in flight

    Requests are served concurrently: between the SELECT and the UPDATE of
    one login, statements of another may run.  A login in flight is either
    about to select, holds the row it selected, or has answered. *)
Inductive in_flight : Type :=
| Waiting (req_email req_password : option string)
| Selected (user : admin_user) (password : string)
| Answered (r : response).

(** One round trip of a login served at [now]. *)
Definition step_login (now : Z) (s : in_flight) (db : table) : in_flight * table :=
  match s with
  | Waiting e p =>
      match login_select now e p db with
      | inl r => (Answered r, db)
      | inr (user, password) => (Selected user password, db)
      end
  | Selected user password =>
      let '(db', r) := login_update now user password db in (Answered r, db')
  | Answered r => (Answered r, db)
  end.

(** Two logins, the first served at [nowA], the second at [nowB]; the
    schedule says whose round trip runs next ([false]: the first). *)
Fixpoint run_two (nowA nowB : Z) (schedule : list bool) (a b : in_flight) (db : table)
  : in_flight * in_flight * table :=
  match schedule with
  | [] => (a, b, db)
  | false :: rest =>
      let '(a', db') := step_login nowA a db in run_two nowA nowB rest a' b db'
  | true :: rest =>
      let '(b', db') := step_login nowB b db in run_two nowA nowB rest a b' db'
  end.

(** Logins for one email and password served one after the other, at the
    given instants, each on the store the previous one left. *)
Definition logins_in_a_row (times : list Z) (req_email req_password : option string)
  (db : table) : table :=
  fold_left (fun d now => fst (login now req_email req_password d)) times db.

(** *** The Google callback route *)

(** [process.env.GOOGLE_CLIENT_ID] and [process.env.GOOGLE_CLIENT_SECRET]. *)
Variable GOOGLE_CLIENT_ID GOOGLE_CLIENT_SECRET : option string.

(** [message.includes(piece)] *)
Fixpoint str_includes (message piece : string) : bool :=
  String.prefix piece message
  || match message with
     | EmptyString => false
     | String _ rest => str_includes rest piece
     end.

(** Where the callback route sends the browser: [redirect_error c] is
    [res.redirect('/?error=' + c)], [redirect_token t] is
    [res.redirect(`/?token=${t}`)]. *)
Inductive redirect : Type :=
| redirect_error (code : string)
| redirect_token (token : json).

(** GET /api/auth/google/callback, once passport has run the verify
    callback and hands over what it passed to [done]. *)
Definition google_callback (now : Z) (outcome : done_result) : redirect :=
  if negb (truthy_str GOOGLE_CLIENT_ID) || negb (truthy_str GOOGLE_CLIENT_SECRET)
  then redirect_error "oauth_not_configured"
  else
    match outcome with
    | done_error message =>
        if str_includes message "not authorized"
        then redirect_error "unauthorized_account"
        else if str_includes message "Maximum number"
        then redirect_error "max_users_reached"
        else if str_includes message "whitelist not configured"
        then redirect_error "whitelist_not_configured"
        else redirect_error "oauth_failed"
    | done_user user => redirect_token (generateToken (id user) (email user) now)
    end.

(** *** The login page (Login.tsx), as far as it decides on the answers *)

(** What the page does with an answer: nothing, show an error, ask for the
    MFA code keeping the temporary token, or call [onLoginSuccess] with a
    token. *)
Inductive page_action : Type :=
| no_action
| show_error (message : json)
| ask_mfa_code (tempToken : option json)
| login_success (token : option json).

(** [res.ok] *)
Definition res_ok (r : response) : bool := (200 <=? status r) && (status r <=? 299).

(** [data.error || fallback] *)
Definition error_or (r : response) (fallback : string) : json :=
  match body_field "error" r with
  | Some v => if truthy (Some v) then v else JStr fallback
  | None => JStr fallback
  end.

(** [handleLogin], after the fetch of /api/auth/login. *)
Definition handleLogin (r : response) : page_action :=
  if negb (res_ok r) then show_error (error_or r "Login failed")
  else if truthy (body_field "requiresMFA" r)
  then ask_mfa_code (body_field "tempToken" r)
  else login_success (body_field "token" r).

(** [handleMFAVerify], after the fetch of /api/auth/verify-mfa. *)
Definition handleMFAVerify (r : response) : page_action :=
  if negb (res_ok r) then show_error (error_or r "MFA verification failed")
  else login_success (body_field "token" r).

(** The effect that reads the query string the callback route redirected
    to. *)
Definition handleOAuthRedirect (target : redirect) : page_action :=
  match target with
  | redirect_token token => login_success (Some token)
  | redirect_error code =>
      if negb (truthy_str (Some code)) then no_action
      else if String.eqb code "oauth_not_configured"
      then show_error (JStr "Google OAuth is not configured. Please contact administrator.")
      else if String.eqb code "unauthorized_account"
      then show_error (JStr "This Google account is not authorized. Only whitelisted accounts can sign in.")
      else if String.eqb code "max_users_reached"
      then show_error (JStr "Maximum number of admin accounts reached. Contact administrator.")
      else if String.eqb code "whitelist_not_configured"
      then show_error (JStr "Google OAuth whitelist not configured. Contact administrator.")
      else show_error (JStr "Google sign-in failed. Please try again or use email/password.")
  end.

(** *** Two Google callbacks in flight

    The verify callback makes up to three round trips to the store: the
    SELECT of the row, then either the UPDATE of the last login, or the
    COUNT and, after the id and the bcrypt hash are made, the INSERT.
    Statements of another callback may run in between. *)

(** What one run of the callback is given: its instant, the random id and
    password and the salt it draws, and the profile. *)
Record federation_request : Type := mkFederation {
  f_now : Z;
  f_userId : string;
  f_randomPassword : string;
  f_salt : string;
  f_profile : google_profile
}.

(** A callback in flight: about to select, found no row and about to count,
    found room and about to insert, found a row and about to update it, or
    ended in [done]. *)
Inductive federating : Type :=
| Arrived
| NoAccount (email_ : string)
| Room (email_ : string)
| Existing (user : admin_user)
| Finished (outcome : done_result).

(** One round trip of a callback. *)
Definition step_google (q : federation_request) (s : federating) (db : table)
  : federating * table :=
  match s with
  | Arrived =>
      match hd_error (emails (f_profile q)) with
      | Some email_ =>
          if negb (truthy_str (Some email_))
          then (Finished (done_error "No email found in Google profile"), db)
          else if Z.of_nat (length allowedEmails) =? 0
          then (Finished (done_error "Google OAuth whitelist not configured"), db)
          else if negb (includes allowedEmails (toLowerCase email_))
          then (Finished (done_error "This Google account is not authorized to access MediFlow AI"), db)
          else
            match rows0 (select_where (fun r => String.eqb (email r) (toLowerCase email_)) db) with
            | None => (NoAccount email_, db)
            | Some user => (Existing user, db)
            end
      | None => (Finished (done_error "No email found in Google profile"), db)
      end
  | NoAccount email_ =>
      let userCount := count_users db in
      if userCount >=? 5
      then (Finished (done_error "Maximum number of admin accounts reached"), db)
      else (Room email_, db)
  | Room email_ =>
      let name_ := if truthy_str (displayName (f_profile q))
                   then match displayName (f_profile q) with Some n => n | None => "" end
                   else hd "" (split_on "@" email_) in
      let user := new_google_user (f_now q) (f_userId q) (toLowerCase email_) name_
                    (bcrypt_hash (f_randomPassword q) 12 (f_salt q)) in
      (Finished (done_user user), (db ++ [user])%list)
  | Existing user =>
      (Finished (done_user user),
       update_where (fun r => String.eqb (id r) (id user)) (set_last_login (f_now q)) db)
  | Finished outcome => (Finished outcome, db)
  end.

(** A callback served alone, for a number of round trips. *)
Fixpoint run_google (q : federation_request) (trips : nat) (s : federating) (db : table)
  : federating * table :=
  match trips with
  | O => (s, db)
  | S n => let '(s', db') := step_google q s db in run_google q n s' db'
  end.

(** Two callbacks; the schedule says whose round trip runs next ([false]:
    the first). *)
Fixpoint run_two_google (qa qb : federation_request) (schedule : list bool)
  (a b : federating) (db : table) : federating * federating * table :=
  match schedule with
  | [] => (a, b, db)
  | false :: rest =>
      let '(a', db') := step_google qa a db in run_two_google qa qb rest a' b db'
  | true :: rest =>
      let '(b', db') := step_google qb b db in run_two_google qa qb rest a b' db'
  end.

(** From the spec's words (section 5), for comparison with [login_update]:
    the update of failed counter and lockout expiry as one storage-level
    increment-and-compare keyed by the account id, computed from the row as
    the store holds it when the statement runs. *)
Definition spec_increment_and_compare (now : Z) (account : string) (db : table) : table :=
  update_where (fun r => String.eqb (id r) account)
    (fun r =>
       let failedAttempts := or0 (failed_login_attempts r) + 1 in
       set_failed failedAttempts
         (if failedAttempts >=? 5 then Some (now + 15 * 60 * 1000) else None) r)
    db.

(** ** Properties *)

(** *** The store *)

Lemma rows0_select_sound (p : admin_user -> bool) (db : table) (u : admin_user) :
  rows0 (select_where p db) = Some u -> p u = true /\ In u db.
Proof.
  unfold rows0, select_where.
  induction db as [|r db IH]; simpl; [discriminate|].
  destruct (p r) eqn:Hp; simpl.
  - intros [= ->]. auto.
  - intros H. destruct (IH H). auto.
Qed.

(** Selecting after an UPDATE that leaves the selecting condition alone
    finds the same row, updated if the UPDATE applies to it. *)
Lemma rows0_select_update (p q : admin_user -> bool) (set : admin_user -> admin_user)
  (db : table) (u : admin_user) :
  (forall r, p (set r) = p r) ->
  rows0 (select_where p db) = Some u ->
  rows0 (select_where p (update_where q set db)) = Some (if q u then set u else u).
Proof.
  intros Hset. unfold rows0, select_where, update_where.
  induction db as [|r db IH]; simpl; [discriminate|].
  destruct (p r) eqn:Hp; simpl.
  - intros [= ->]. destruct (q u); [rewrite Hset|]; rewrite Hp; reflexivity.
  - intros H. destruct (q r); [rewrite Hset|]; rewrite Hp; auto.
Qed.

Lemma update_where_map {A : Type} (f : admin_user -> A) (q : admin_user -> bool)
  (set : admin_user -> admin_user) (db : table) :
  (forall r, f (set r) = f r) ->
  map f (update_where q set db) = map f db.
Proof.
  intros Hset. unfold update_where. rewrite map_map.
  apply map_ext. intros r. destruct (q r); auto.
Qed.

Lemma update_where_In (q : admin_user -> bool) (set : admin_user -> admin_user)
  (db : table) (r' : admin_user) :
  In r' (update_where q set db) ->
  exists r, In r db /\ r' = (if q r then set r else r).
Proof.
  unfold update_where. rewrite in_map_iff. intros [r [<- Hin]]. eauto.
Qed.

Lemma includes_nonempty (xs : list string) (x : string) :
  includes xs x = true -> (Z.of_nat (length xs) =? 0) = false.
Proof.
  destruct xs; simpl; [discriminate|]. intros _. reflexivity.
Qed.

(** *** Login *)

(** What [login] does once the row is found and not locked. *)
Lemma login_checks_password (now : Z) (e p : string) (db : table) (user : admin_user) :
  truthy_str (Some e) = true ->
  truthy_str (Some p) = true ->
  rows0 (select_where (fun r => String.eqb (email r) (toLowerCase e)) db) = Some user ->
  is_locked user now = false ->
  login now (Some e) (Some p) db = login_update now user p db.
Proof.
  intros He Hp Hsel Hlock. unfold login, login_select.
  rewrite He, Hp, Hsel, Hlock. reflexivity.
Qed.

(** C4: a wrong password against a registered, non-locked account adds one
    to the failed counter (a NULL counter counting as 0), sets the lockout
    expiry to [now] + 15 minutes when the new counter is 5 or more and to
    NULL otherwise, and answers 401 with
    [attemptsRemaining = max 0 (5 - counter)]; from counter 4 the account
    ends with counter 5, lockout set, and [attemptsRemaining = 0]. *)
Theorem login_wrong_password (now : Z) (e p : string) (db : table) (user : admin_user) :
  truthy_str (Some e) = true ->
  truthy_str (Some p) = true ->
  rows0 (select_where (fun r => String.eqb (email r) (toLowerCase e)) db) = Some user ->
  is_locked user now = false ->
  bcrypt_compare p (password_hash user) = false ->
  let counter := or0 (failed_login_attempts user) + 1 in
  let db' := fst (login now (Some e) (Some p) db) in
  let r := snd (login now (Some e) (Some p) db) in
  exists user',
    rows0 (select_where (fun r => String.eqb (email r) (toLowerCase e)) db') = Some user' /\
    failed_login_attempts user' = Some counter /\
    (5 <= counter -> locked_until user' = Some (now + 15 * 60 * 1000)) /\
    (counter < 5 -> locked_until user' = None) /\
    status r = 401 /\
    body_field "attemptsRemaining" r = Some (JNum (Z.max 0 (5 - counter))) /\
    (failed_login_attempts user = Some 4 ->
     failed_login_attempts user' = Some 5 /\
     locked_until user' = Some (now + 15 * 60 * 1000) /\
     body_field "attemptsRemaining" r = Some (JNum 0)).
Proof.
  intros He Hp Hsel Hlock Hbad counter db' r.
  subst db' r. rewrite (login_checks_password now e p db user He Hp Hsel Hlock).
  unfold login_update. rewrite Hbad. cbn [negb fst snd].
  fold counter. eexists. split.
  { apply rows0_select_update; [reflexivity | exact Hsel]. }
  rewrite String.eqb_refl. cbn [set_failed failed_login_attempts locked_until].
  split; [reflexivity|].
  split. { intros Hc. destruct (counter >=? 5) eqn:E; [reflexivity | lia]. }
  split. { intros Hc. destruct (counter >=? 5) eqn:E; [lia | reflexivity]. }
  split; [reflexivity|]. split; [reflexivity|].
  intros H4. subst counter. rewrite H4. cbn. auto.
Qed.

(** C5: while the lockout expiry of the account is set and in the future,
    login answers 423 whatever the password is, leaves the store as it was,
    and the answer carries neither a session token nor an MFA token. *)
Theorem login_locked (now t : Z) (e p : string) (db : table) (user : admin_user) :
  truthy_str (Some e) = true ->
  truthy_str (Some p) = true ->
  rows0 (select_where (fun r => String.eqb (email r) (toLowerCase e)) db) = Some user ->
  locked_until user = Some t ->
  now < t ->
  let r := snd (login now (Some e) (Some p) db) in
  fst (login now (Some e) (Some p) db) = db /\
  status r = 423 /\
  body_field "token" r = None /\
  body_field "tempToken" r = None.
Proof.
  intros He Hp Hsel Ht Hlt r. subst r. unfold login, login_select.
  rewrite He, Hp, Hsel. unfold is_locked. rewrite Ht.
  replace (now <? t) with true by (symmetry; apply Z.ltb_lt; exact Hlt).
  cbn. auto.
Qed.

(** The middleware lets a session token through, with its payload, until 8
    hours after it was issued. *)
Lemma authenticateToken_session_token (scheme : json) (userId email_ : string)
  (issued now : Z) :
  now / 1000 < issued / 1000 + 8 * 60 * 60 ->
  authenticateToken now (Some [scheme; generateToken userId email_ issued])
  = inr [("userId", JStr userId); ("email", JStr email_); ("role", JStr "admin");
         ("iat", JNum (issued / 1000)); ("exp", JNum (issued / 1000 + 8 * 60 * 60))].
Proof.
  intros Hfresh.
  unfold authenticateToken, generateToken, jwt_sign, jwt_verify. cbn [nth_error truthy negb].
  rewrite String.eqb_refl. cbn [negb app field String.eqb Ascii.eqb Bool.eqb].
  unfold JWT_EXPIRES_IN.
  replace (now / 1000 >=? issued / 1000 + 8 * 60 * 60) with false; [reflexivity|].
  symmetry. rewrite Z.geb_leb. apply Z.leb_gt. exact Hfresh.
Qed.

(** C10: with the MFA flag set and no secret stored, a correct password is
    answered with a full session token at once: a token signed with the
    router's key whose payload carries the account's id and email and the
    role admin, and no [temp], and which [authenticateToken] accepts for the
    next 8 hours; the answer has no [requiresMFA] and no temporary token. *)
Theorem login_mfa_flag_without_secret (now : Z) (e p : string) (db : table)
  (user : admin_user) :
  truthy_str (Some e) = true ->
  truthy_str (Some p) = true ->
  rows0 (select_where (fun r => String.eqb (email r) (toLowerCase e)) db) = Some user ->
  is_locked user now = false ->
  bcrypt_compare p (password_hash user) = true ->
  mfa_enabled user = true ->
  mfa_secret user = None ->
  let r := snd (login now (Some e) (Some p) db) in
  let payload := [("userId", JStr (id user)); ("email", JStr (email user));
                  ("role", JStr "admin"); ("iat", JNum (now / 1000));
                  ("exp", JNum (now / 1000 + 8 * 60 * 60))] in
  status r = 200 /\
  body_field "token" r = Some (generateToken (id user) (email user) now) /\
  body_field "requiresMFA" r = None /\
  body_field "tempToken" r = None /\
  body_field "token" r = Some (JJwt payload JWT_SECRET) /\
  body_field "user" r = Some (user_summary user) /\
  field "temp" payload = None /\
  (forall scheme now',
      now' / 1000 < now / 1000 + 8 * 60 * 60 ->
      authenticateToken now' (Some [scheme; JJwt payload JWT_SECRET]) = inr payload).
Proof.
  intros He Hp Hsel Hlock Hok Hflag Hsecret r payload. subst r payload.
  rewrite (login_checks_password now e p db user He Hp Hsel Hlock).
  unfold login_update. rewrite Hok, Hflag, Hsecret. cbn [negb andb truthy_str snd].
  repeat (split; [reflexivity|]).
  intros scheme now' Hfresh.
  exact (authenticateToken_session_token scheme (id user) (email user) now now' Hfresh).
Qed.

(** *** Password reset *)

(** The UPDATE of the reset route names neither the failed counter nor the
    lockout expiry: whatever the outcome, both columns keep their values in
    every row. *)
Lemma reset_password_keeps_lockout_state (now : Z) (salt : string)
  (token newPassword : option string) (db : table) :
  map failed_login_attempts (fst (reset_password now salt token newPassword db))
    = map failed_login_attempts db /\
  map locked_until (fst (reset_password now salt token newPassword db))
    = map locked_until db.
Proof.
  unfold reset_password.
  destruct token as [tok|], newPassword as [pw|]; cbn [fst]; auto.
  destruct (negb (truthy_str (Some tok)) || negb (truthy_str (Some pw))); cbn [fst]; auto.
  destruct (Z.of_nat (String.length pw) <? 12); cbn [fst]; auto.
  destruct (rows0 _); cbn [fst]; auto.
  split; apply update_where_map; reflexivity.
Qed.

(** C3, as the code has it: a successful password check in login leaves the
    account with failed counter 0 (and no lockout); a password reset, also a
    successful one, leaves the failed counter and the lockout expiry of
    every account as they were. *)
Theorem counter_after_login_and_reset :
  (forall (now : Z) (e p : string) (db : table) (user : admin_user),
      truthy_str (Some e) = true ->
      truthy_str (Some p) = true ->
      rows0 (select_where (fun r => String.eqb (email r) (toLowerCase e)) db) = Some user ->
      is_locked user now = false ->
      bcrypt_compare p (password_hash user) = true ->
      exists user',
        rows0 (select_where (fun r => String.eqb (email r) (toLowerCase e))
                 (fst (login now (Some e) (Some p) db))) = Some user' /\
        failed_login_attempts user' = Some 0 /\
        locked_until user' = None) /\
  (forall (now : Z) (salt : string) (token newPassword : option string) (db : table),
      map failed_login_attempts (fst (reset_password now salt token newPassword db))
        = map failed_login_attempts db /\
      map locked_until (fst (reset_password now salt token newPassword db))
        = map locked_until db).
Proof.
  split.
  - intros now e p db user He Hp Hsel Hlock Hok.
    rewrite (login_checks_password now e p db user He Hp Hsel Hlock).
    unfold login_update. rewrite Hok. cbn [negb].
    exists (set_login_ok now user). split.
    + replace (fst _) with
        (update_where (fun r => String.eqb (id r) (id user)) (set_login_ok now) db)
        by (destruct (mfa_enabled user && truthy_str (mfa_secret user)); reflexivity).
      rewrite (rows0_select_update _ (fun r => String.eqb (id r) (id user))
                 (set_login_ok now) db user); [|reflexivity|exact Hsel].
      rewrite String.eqb_refl. reflexivity.
    + split; reflexivity.
  - apply reset_password_keeps_lockout_state.
Qed.

(** *** MFA enrollment *)

(** C8: with a pending secret stored, a code valid for it makes enable-mfa
    set the flag, store the pending secret as the active one and clear the
    pending column, all in its one UPDATE, so that no row of the account has
    a pending secret left; an invalid code is answered 401 "Invalid MFA
    code" and the store, pending secret included, stays as it was. *)
Theorem enable_mfa_promotes_or_keeps (now : Z) (code secret : string)
  (user : list (string * json)) (db : table) (row : admin_user) :
  truthy_str (Some code) = true ->
  rows0 (select_where (id_is (field "userId" user)) db) = Some row ->
  mfa_secret_temp row = Some secret ->
  truthy_str (Some secret) = true ->
  (totp_verify secret code 2 now = true ->
   let db' := fst (enable_mfa now (Some code) user db) in
   db' = update_where (id_is (field "userId" user)) set_mfa_enabled db /\
   status (snd (enable_mfa now (Some code) user db)) = 200 /\
   (exists row',
       rows0 (select_where (id_is (field "userId" user)) db') = Some row' /\
       mfa_enabled row' = true /\
       mfa_secret row' = Some secret /\
       mfa_secret_temp row' = None) /\
   (forall r', In r' db' -> id_is (field "userId" user) r' = true ->
               mfa_enabled r' = true /\ mfa_secret_temp r' = None)) /\
  (totp_verify secret code 2 now = false ->
   enable_mfa now (Some code) user db
   = (db, res_status_json 401 [("error", JStr "Invalid MFA code")])).
Proof.
  intros Hcode Hsel Htemp Hsecret.
  unfold enable_mfa. rewrite Hcode, Hsel, Htemp, Hsecret. cbn [negb].
  split; intros Hv; rewrite Hv; cbn [negb fst snd]; [|reflexivity].
  split; [reflexivity|]. split; [reflexivity|]. split.
  - exists (set_mfa_enabled row). split.
    + rewrite (rows0_select_update _ (id_is (field "userId" user)) set_mfa_enabled db row).
      * destruct (rows0_select_sound _ _ _ Hsel) as [-> _]. reflexivity.
      * intros r. unfold id_is. destruct (field "userId" user) as [[]|]; reflexivity.
      * exact Hsel.
    + cbn. auto.
  - intros r' Hin Hid.
    destruct (update_where_In _ _ _ _ Hin) as [r0 [_ ->]].
    destruct (id_is (field "userId" user) r0) eqn:E.
    + cbn. auto.
    + congruence.
Qed.

(** *** Google federation *)

(** C7: for a whitelisted email, when no account has it and the table holds
    5 rows or more, the callback ends in the capacity error and the table is
    as before; when an account has it, the callback ends in that account,
    with its last login set to [now], however many rows the table holds. *)
Theorem google_verify_capacity (now : Z) (userId randomPassword salt : string)
  (profile : google_profile) (db : table) (e : string) :
  hd_error (emails profile) = Some e ->
  truthy_str (Some e) = true ->
  includes allowedEmails (toLowerCase e) = true ->
  (rows0 (select_where (fun r => String.eqb (email r) (toLowerCase e)) db) = None ->
   5 <= count_users db ->
   google_verify now userId randomPassword salt profile db
   = (db, done_error "Maximum number of admin accounts reached")) /\
  (forall user,
      rows0 (select_where (fun r => String.eqb (email r) (toLowerCase e)) db) = Some user ->
      let db' := fst (google_verify now userId randomPassword salt profile db) in
      snd (google_verify now userId randomPassword salt profile db) = done_user user /\
      length db' = length db /\
      exists user',
        rows0 (select_where (fun r => String.eqb (email r) (toLowerCase e)) db') = Some user' /\
        last_login user' = Some now /\
        user' = set_last_login now user).
Proof.
  intros Hhd He Hin. unfold google_verify.
  rewrite Hhd, He, (includes_nonempty _ _ Hin), Hin. cbn [negb].
  split.
  - intros Hnone Hcap. rewrite Hnone.
    replace (count_users db >=? 5) with true; [reflexivity|].
    symmetry. apply Z.geb_le. exact Hcap.
  - intros user Hsel. rewrite Hsel. cbn [fst snd].
    split; [reflexivity|]. split.
    + unfold update_where. apply length_map.
    + exists (set_last_login now user). split; [|split; reflexivity].
      rewrite (rows0_select_update _ (fun r => String.eqb (id r) (id user))
                 (set_last_login now) db user); [|reflexivity|exact Hsel].
      rewrite String.eqb_refl. reflexivity.
Qed.

(** *** Tokens *)

(** A temporary token verifies under the router's key until 300 seconds
    after it was issued, and is expired from then on. *)
Lemma verify_temp_token (userId : string) (issued now : Z) :
  jwt_verify (generateTempToken userId issued) JWT_SECRET now
  = if now / 1000 >=? issued / 1000 + 5 * 60
    then inl TokenExpiredError
    else inr [("userId", JStr userId); ("temp", JBool true);
              ("iat", JNum (issued / 1000)); ("exp", JNum (issued / 1000 + 5 * 60))].
Proof.
  unfold generateTempToken, jwt_sign, jwt_verify.
  rewrite String.eqb_refl. reflexivity.
Qed.

(** The middleware lets every unexpired temporary token through: it looks at
    signature and expiry only. *)
Lemma authenticateToken_temp_token (scheme : json) (userId : string) (issued now : Z) :
  now / 1000 < issued / 1000 + 5 * 60 ->
  authenticateToken now (Some [scheme; generateTempToken userId issued])
  = inr [("userId", JStr userId); ("temp", JBool true);
         ("iat", JNum (issued / 1000)); ("exp", JNum (issued / 1000 + 5 * 60))].
Proof.
  intros Hfresh. unfold authenticateToken. cbn [nth_error].
  rewrite verify_temp_token.
  replace (now / 1000 >=? issued / 1000 + 5 * 60) with false; [reflexivity|].
  symmetry. rewrite Z.geb_leb. apply Z.leb_gt. exact Hfresh.
Qed.

(** An expired temporary token makes verify-mfa answer through its
    catch-all: 500, whatever the code is. *)
Lemma verify_mfa_expired (userId code : string) (issued now : Z) (db : table) :
  truthy_str (Some code) = true ->
  issued / 1000 + 5 * 60 <= now / 1000 ->
  verify_mfa now (Some (generateTempToken userId issued)) (Some code) db
  = (db, internal_server_error).
Proof.
  intros Hcode Hold. unfold verify_mfa. rewrite Hcode.
  cbn [truthy generateTempToken jwt_sign negb orb].
  fold (jwt_sign [("userId", JStr userId); ("temp", JBool true)] JWT_SECRET (5 * 60) issued).
  fold (generateTempToken userId issued).
  rewrite verify_temp_token.
  replace (now / 1000 >=? issued / 1000 + 5 * 60) with true; [reflexivity|].
  symmetry. apply Z.geb_le. exact Hold.
Qed.

(** A verified token without a truthy [temp] makes verify-mfa answer 401
    "Invalid token". *)
Lemma verify_mfa_not_pending (tok : json) (decoded : list (string * json))
  (code : string) (now : Z) (db : table) :
  truthy (Some tok) = true ->
  truthy_str (Some code) = true ->
  jwt_verify tok JWT_SECRET now = inr decoded ->
  truthy (field "temp" decoded) = false ->
  verify_mfa now (Some tok) (Some code) db
  = (db, res_status_json 401 [("error", JStr "Invalid token")]).
Proof.
  intros Htok Hcode Hver Htemp. unfold verify_mfa.
  rewrite Htok, Hcode, Hver, Htemp. reflexivity.
Qed.

(** An unknown email is answered 401 with the error text alone. *)
Lemma login_unknown_email (now : Z) (e p : string) (db : table) :
  truthy_str (Some e) = true ->
  truthy_str (Some p) = true ->
  rows0 (select_where (fun r => String.eqb (email r) (toLowerCase e)) db) = None ->
  login now (Some e) (Some p) db
  = (db, res_status_json 401 [("error", JStr "Invalid email or password")]).
Proof.
  intros He Hp Hsel. unfold login, login_select. rewrite He, Hp, Hsel. reflexivity.
Qed.

(** *** Two wrong passwords in flight *)

(** The UPDATE of a wrong-password login that read [user] with four failed
    logins: counter 5 and the lockout, whatever the store holds by then. *)
Lemma login_update_from_four (now : Z) (user : admin_user) (p : string) (db : table) :
  failed_login_attempts user = Some 4 ->
  bcrypt_compare p (password_hash user) = false ->
  login_update now user p db
  = (update_where (fun r => String.eqb (id r) (id user))
       (set_failed 5 (Some (now + 15 * 60 * 1000))) db,
     res_status_json 401 [("error", JStr "Invalid email or password");
                          ("attemptsRemaining", JNum 0)]).
Proof.
  intros H4 Hbad. unfold login_update. rewrite Hbad, H4. reflexivity.
Qed.

(** Runs a schedule of two logins: unfolds one round trip at a time and
    replaces each SELECT and UPDATE by the equation given for it. *)
Ltac run_schedule HselA HselB HupdA HupdB :=
  repeat (progress cbn [run_two step_login negb]
          || rewrite HselA || rewrite HselB || rewrite HupdA || rewrite HupdB).

(** C9, as the code has it: two wrong-password logins for one account that
    both read failed counter 4 before either writes.  Each writes, in its
    one UPDATE, counter 5 together with the lockout expiry [its now + 15
    minutes], computed from the row it read: after the first UPDATE and
    after the second the account has counter 5 (one increment is lost) and
    a lockout set, and both are answered [attemptsRemaining = 0].  So both
    writing 5 with neither setting the lockout cannot happen. *)
Theorem two_wrong_logins_from_four (nowA nowB : Z) (e pA pB : string) (db : table)
  (user : admin_user) (i j : bool) :
  truthy_str (Some e) = true ->
  truthy_str (Some pA) = true ->
  truthy_str (Some pB) = true ->
  rows0 (select_where (fun r => String.eqb (email r) (toLowerCase e)) db) = Some user ->
  failed_login_attempts user = Some 4 ->
  is_locked user nowA = false ->
  is_locked user nowB = false ->
  bcrypt_compare pA (password_hash user) = false ->
  bcrypt_compare pB (password_hash user) = false ->
  let start_a := Waiting (Some e) (Some pA) in
  let start_b := Waiting (Some e) (Some pB) in
  let now_of (second : bool) := if second then nowB else nowA in
  let too_many := res_status_json 401 [("error", JStr "Invalid email or password");
                                       ("attemptsRemaining", JNum 0)] in
  (exists a b,
      run_two nowA nowB [i; negb i] start_a start_b db
      = (Selected user a, Selected user b, db)) /\
  (exists a b db1 row1,
      run_two nowA nowB [i; negb i; j] start_a start_b db = (a, b, db1) /\
      rows0 (select_where (fun r => String.eqb (email r) (toLowerCase e)) db1) = Some row1 /\
      failed_login_attempts row1 = Some 5 /\
      locked_until row1 = Some (now_of j + 15 * 60 * 1000)) /\
  (exists db2 row2,
      run_two nowA nowB [i; negb i; j; negb j] start_a start_b db
      = (Answered too_many, Answered too_many, db2) /\
      rows0 (select_where (fun r => String.eqb (email r) (toLowerCase e)) db2) = Some row2 /\
      failed_login_attempts row2 = Some 5 /\
      locked_until row2 = Some (now_of (negb j) + 15 * 60 * 1000)).
Proof.
  intros He HpA HpB Hsel H4 HlockA HlockB HbadA HbadB start_a start_b now_of too_many.
  assert (HselA : login_select nowA (Some e) (Some pA) db = inr (user, pA)).
  { unfold login_select. rewrite He, HpA, Hsel, HlockA. reflexivity. }
  assert (HselB : login_select nowB (Some e) (Some pB) db = inr (user, pB)).
  { unfold login_select. rewrite He, HpB, Hsel, HlockB. reflexivity. }
  assert (Hrow : forall now db0 row0,
             rows0 (select_where (fun r => String.eqb (email r) (toLowerCase e)) db0) = Some row0 ->
             id row0 = id user ->
             rows0 (select_where (fun r => String.eqb (email r) (toLowerCase e))
                      (update_where (fun r => String.eqb (id r) (id user))
                         (set_failed 5 (Some (now + 15 * 60 * 1000))) db0))
             = Some (set_failed 5 (Some (now + 15 * 60 * 1000)) row0)).
  { intros now db0 row0 H0 Hid.
    rewrite (rows0_select_update _ (fun r => String.eqb (id r) (id user))
               (set_failed 5 (Some (now + 15 * 60 * 1000))) db0 row0);
      [|reflexivity|exact H0].
    rewrite Hid, String.eqb_refl. reflexivity. }
  subst start_a start_b now_of too_many.
  assert (HupdA := fun db0 => login_update_from_four nowA user pA db0 H4 HbadA).
  assert (HupdB := fun db0 => login_update_from_four nowB user pB db0 H4 HbadB).
  split; [|split].
  - destruct i; run_schedule HselA HselB HupdA HupdB; eauto.
  - destruct i, j; run_schedule HselA HselB HupdA HupdB;
      do 4 eexists; (split; [reflexivity|]);
      (split; [apply Hrow; [exact Hsel|reflexivity]|]); split; reflexivity.
  - destruct i, j; run_schedule HselA HselB HupdA HupdB;
      do 2 eexists; (split; [reflexivity|]);
      (split; [apply Hrow; [apply Hrow; [exact Hsel|reflexivity]|reflexivity]|]);
      split; reflexivity.
Qed.

(** ** Further properties of the router *)

(** *** More on the store *)

Lemma rows0_select_exists (p : admin_user -> bool) (db : table) (r : admin_user) :
  In r db -> p r = true -> exists u, rows0 (select_where p db) = Some u.
Proof.
  unfold rows0, select_where. induction db as [|x db IH]; simpl; [tauto|].
  intros [->|Hin] Hp.
  - rewrite Hp. simpl. eauto.
  - destruct (p x); simpl; eauto.
Qed.

Lemma rows0_select_none (p : admin_user -> bool) (db : table) :
  (forall r, In r db -> p r = false) -> rows0 (select_where p db) = None.
Proof.
  unfold rows0, select_where. induction db as [|x db IH]; simpl; [reflexivity|].
  intros H. rewrite (H x (or_introl eq_refl)). apply IH. intros r Hr. apply H. auto.
Qed.

Lemma update_where_In_image (q : admin_user -> bool) (set : admin_user -> admin_user)
  (db : table) (r : admin_user) :
  In r db -> In (if q r then set r else r) (update_where q set db).
Proof.
  intros Hin. unfold update_where.
  apply (in_map (fun r => if q r then set r else r)). exact Hin.
Qed.

Lemma long_password_truthy (pw : string) :
  12 <= Z.of_nat (String.length pw) -> truthy_str (Some pw) = true.
Proof.
  destruct pw; simpl; [lia | reflexivity].
Qed.

(** *** Password reset, continued *)

(** X1: forgot-password gives the same answer for any two non-empty emails and
    any two stores, registered or not, and leaves the store alone when the
    email is unknown. *)
Theorem forgot_password_same_answer (now1 now2 : Z) (token1 token2 e1 e2 : string)
  (db1 db2 : table) :
  truthy_str (Some e1) = true ->
  truthy_str (Some e2) = true ->
  snd (forgot_password now1 token1 (Some e1) db1)
  = snd (forgot_password now2 token2 (Some e2) db2) /\
  (rows0 (select_where (fun r => String.eqb (email r) (toLowerCase e1)) db1) = None ->
   fst (forgot_password now1 token1 (Some e1) db1) = db1).
Proof.
  intros H1 H2. unfold forgot_password. rewrite H1, H2. cbn [negb].
  split.
  - destruct (rows0 (select_where _ db1)), (rows0 (select_where _ db2)); reflexivity.
  - intros ->. reflexivity.
Qed.

(** What forgot-password stores for a registered email. *)
Lemma forgot_password_stores (now : Z) (token e : string) (db : table) (user : admin_user) :
  truthy_str (Some e) = true ->
  rows0 (select_where (fun r => String.eqb (email r) (toLowerCase e)) db) = Some user ->
  fst (forgot_password now token (Some e) db)
  = update_where (fun r => String.eqb (id r) (id user))
      (set_reset_token (sha256_hex token) (now + 60 * 60 * 1000)) db.
Proof.
  intros He Hsel. unfold forgot_password. rewrite He, Hsel. reflexivity.
Qed.

(** After forgot-password with a token no row held before, the rows the
    token is valid for are rows of the account that asked. *)
Lemma fresh_token_rows (now now' : Z) (token : string) (db : table) (user r' : admin_user) :
  (forall r, In r db -> reset_token r <> Some (sha256_hex token)) ->
  In r' (update_where (fun r => String.eqb (id r) (id user))
           (set_reset_token (sha256_hex token) (now + 60 * 60 * 1000)) db) ->
  has_valid_reset_token (sha256_hex token) now' r' = true ->
  id r' = id user /\ now' < now + 60 * 60 * 1000.
Proof.
  intros Hfresh Hin Hvalid.
  destruct (update_where_In _ _ _ _ Hin) as [r [Hr ->]].
  destruct (String.eqb (id r) (id user)) eqn:E.
  - apply String.eqb_eq in E. unfold has_valid_reset_token in Hvalid.
    cbn in Hvalid. apply andb_prop in Hvalid. destruct Hvalid as [_ Hlt].
    split; [exact E | apply Z.ltb_lt; exact Hlt].
  - exfalso. unfold has_valid_reset_token in Hvalid.
    destruct (reset_token r) as [h|] eqn:Eh; [|discriminate].
    destruct (reset_token_expiry r); [|discriminate].
    apply andb_prop in Hvalid. destruct Hvalid as [Hh _].
    apply String.eqb_eq in Hh. subst h. exact (Hfresh r Hr Eh).
Qed.

(** X2: Round trip of the reset flow: after forgot-password for a registered
    email with a token that no row holds yet, reset-password with that token
    and a password of 12 characters or more, served less than one hour
    later, answers success; the account then has the new hash, no reset
    token, and its password-changed stamp at the instant of the reset. *)
Theorem forgot_then_reset (now now' : Z) (token salt e pw : string) (db : table)
  (user : admin_user) :
  truthy_str (Some e) = true ->
  truthy_str (Some token) = true ->
  rows0 (select_where (fun r => String.eqb (email r) (toLowerCase e)) db) = Some user ->
  (forall r, In r db -> reset_token r <> Some (sha256_hex token)) ->
  12 <= Z.of_nat (String.length pw) ->
  now' < now + 60 * 60 * 1000 ->
  let db1 := fst (forgot_password now token (Some e) db) in
  let result := reset_password now' salt (Some token) (Some pw) db1 in
  snd result = res_json [("message", JStr "Password reset successful")] /\
  exists user',
    rows0 (select_where (fun r => String.eqb (email r) (toLowerCase e)) (fst result))
    = Some user' /\
    password_hash user' = bcrypt_hash pw 12 salt /\
    reset_token user' = None /\
    reset_token_expiry user' = None /\
    password_changed_at user' = Some now'.
Proof.
  intros He Htok Hsel Hfresh Hlen Hsoon db1 result. subst result db1.
  rewrite (forgot_password_stores now token e db user He Hsel).
  set (db1 := update_where _ _ db).
  assert (Hrow1 : rows0 (select_where (fun r => String.eqb (email r) (toLowerCase e)) db1)
                  = Some (set_reset_token (sha256_hex token) (now + 60 * 60 * 1000) user)).
  { subst db1.
    rewrite (rows0_select_update _ (fun r => String.eqb (id r) (id user))
               (set_reset_token (sha256_hex token) (now + 60 * 60 * 1000)) db user);
      [|reflexivity|exact Hsel].
    rewrite String.eqb_refl. reflexivity. }
  destruct (rows0_select_sound _ _ _ Hrow1) as [_ Hin1].
  destruct (rows0_select_exists (has_valid_reset_token (sha256_hex token) now') db1 _ Hin1)
    as [u1 Hu1].
  { unfold has_valid_reset_token. cbn [set_reset_token reset_token reset_token_expiry].
    apply andb_true_intro. split; [apply String.eqb_refl | apply Z.ltb_lt; exact Hsoon]. }
  destruct (rows0_select_sound _ _ _ Hu1) as [Hvalid1 Hinu1].
  destruct (fresh_token_rows now now' token db user u1 Hfresh Hinu1 Hvalid1) as [Hid _].
  unfold reset_password. rewrite Htok, (long_password_truthy pw Hlen). cbn [negb orb].
  replace (Z.of_nat (String.length pw) <? 12) with false
    by (symmetry; apply Z.ltb_ge; exact Hlen).
  rewrite Hu1. cbn [fst snd]. split; [reflexivity|].
  eexists. split.
  - rewrite (rows0_select_update _ (fun r => String.eqb (id r) (id u1))
               (set_new_password (bcrypt_hash pw 12 salt) now') db1
               (set_reset_token (sha256_hex token) (now + 60 * 60 * 1000) user));
      [|reflexivity|exact Hrow1].
    cbn [set_reset_token id]. rewrite Hid, String.eqb_refl. reflexivity.
  - cbn. auto.
Qed.

(** X3: A reset token is used up: when the rows holding the token all belong to
    the account a reset-password call found, the same token sent again, at
    any instant and with any password of 12 characters or more, is answered
    401 "Invalid or expired reset token" and changes nothing. *)
Theorem reset_token_single_use (now now2 : Z) (token salt salt2 pw pw2 : string)
  (db : table) (user : admin_user) :
  truthy_str (Some token) = true ->
  12 <= Z.of_nat (String.length pw) ->
  12 <= Z.of_nat (String.length pw2) ->
  rows0 (select_where (has_valid_reset_token (sha256_hex token) now) db) = Some user ->
  (forall r, In r db -> reset_token r = Some (sha256_hex token) -> id r = id user) ->
  let db' := fst (reset_password now salt (Some token) (Some pw) db) in
  snd (reset_password now salt (Some token) (Some pw) db)
  = res_json [("message", JStr "Password reset successful")] /\
  reset_password now2 salt2 (Some token) (Some pw2) db'
  = (db', res_status_json 401 [("error", JStr "Invalid or expired reset token")]).
Proof.
  intros Htok Hlen Hlen2 Hsel Hown db'. subst db'.
  unfold reset_password.
  rewrite Htok, (long_password_truthy pw Hlen), (long_password_truthy pw2 Hlen2).
  cbn [negb orb].
  replace (Z.of_nat (String.length pw) <? 12) with false
    by (symmetry; apply Z.ltb_ge; exact Hlen).
  replace (Z.of_nat (String.length pw2) <? 12) with false
    by (symmetry; apply Z.ltb_ge; exact Hlen2).
  rewrite Hsel. cbn [fst snd]. split; [reflexivity|].
  rewrite rows0_select_none; [reflexivity|].
  intros r' Hin. destruct (update_where_In _ _ _ _ Hin) as [r [Hr ->]].
  destruct (String.eqb (id r) (id user)) eqn:E; [reflexivity|].
  unfold has_valid_reset_token.
  destruct (reset_token r) as [h|] eqn:Eh; [|reflexivity].
  destruct (reset_token_expiry r); [|reflexivity].
  destruct (String.eqb h (sha256_hex token)) eqn:Ehh; [|reflexivity].
  apply String.eqb_eq in Ehh. subst h.
  rewrite (Hown r Hr Eh), String.eqb_refl in E. discriminate E.
Qed.

(** X4: A reset token lasts one hour: after forgot-password with a token no row
    held before, reset-password with that token served an hour later or
    more is answered 401 and changes nothing. *)
Theorem reset_token_expires (now now' : Z) (token salt e pw : string) (db : table)
  (user : admin_user) :
  truthy_str (Some e) = true ->
  truthy_str (Some token) = true ->
  rows0 (select_where (fun r => String.eqb (email r) (toLowerCase e)) db) = Some user ->
  (forall r, In r db -> reset_token r <> Some (sha256_hex token)) ->
  12 <= Z.of_nat (String.length pw) ->
  now + 60 * 60 * 1000 <= now' ->
  let db1 := fst (forgot_password now token (Some e) db) in
  reset_password now' salt (Some token) (Some pw) db1
  = (db1, res_status_json 401 [("error", JStr "Invalid or expired reset token")]).
Proof.
  intros He Htok Hsel Hfresh Hlen Hlate db1. subst db1.
  rewrite (forgot_password_stores now token e db user He Hsel).
  unfold reset_password. rewrite Htok, (long_password_truthy pw Hlen). cbn [negb orb].
  replace (Z.of_nat (String.length pw) <? 12) with false
    by (symmetry; apply Z.ltb_ge; exact Hlen).
  rewrite rows0_select_none; [reflexivity|].
  intros r' Hin.
  destruct (has_valid_reset_token (sha256_hex token) now' r') eqn:E; [|reflexivity].
  destruct (fresh_token_rows now now' token db user r' Hfresh Hin E) as [_ Hlt]. lia.
Qed.

(** *** Which requests write *)

(** X5: a request that reset-password, setup-mfa, enable-mfa or disable-mfa
    does not answer with 200 leaves the store as it was, and verify-mfa and
    me never write at all: in particular a wrong MFA code costs nothing, no
    counter moves and no lockout follows. *)
Theorem only_success_writes :
  (forall now salt token pw db,
      status (snd (reset_password now salt token pw db)) <> 200 ->
      fst (reset_password now salt token pw db) = db) /\
  (forall secret qr user db,
      status (snd (setup_mfa secret qr user db)) <> 200 ->
      fst (setup_mfa secret qr user db) = db) /\
  (forall now code user db,
      status (snd (enable_mfa now code user db)) <> 200 ->
      fst (enable_mfa now code user db) = db) /\
  (forall password user db,
      status (snd (disable_mfa password user db)) <> 200 ->
      fst (disable_mfa password user db) = db) /\
  (forall now tempToken code db, fst (verify_mfa now tempToken code db) = db) /\
  (forall user db, fst (me user db) = db).
Proof.
  repeat split.
  - intros now salt token pw db. unfold reset_password.
    destruct token, pw; try reflexivity.
    repeat (match goal with
            | |- context [if ?b then _ else _] => destruct b
            | |- context [match rows0 ?x with _ => _ end] => destruct (rows0 x)
            end; try reflexivity).
    cbn. congruence.
  - intros secret qr user db. unfold setup_mfa.
    destruct (rows0 _); [cbn; congruence | reflexivity].
  - intros now code user db. unfold enable_mfa.
    destruct code; try reflexivity.
    repeat (match goal with
            | |- context [if ?b then _ else _] => destruct b
            | |- context [match rows0 ?x with _ => _ end] => destruct (rows0 x)
            | |- context [match mfa_secret_temp ?x with _ => _ end] =>
                destruct (mfa_secret_temp x)
            end; try reflexivity).
    cbn. congruence.
  - intros password user db. unfold disable_mfa.
    destruct password; try reflexivity.
    repeat (match goal with
            | |- context [if ?b then _ else _] => destruct b
            | |- context [match rows0 ?x with _ => _ end] => destruct (rows0 x)
            end; try reflexivity).
    cbn. congruence.
  - intros now tempToken code db. unfold verify_mfa.
    destruct tempToken, code; try reflexivity.
    repeat (match goal with
            | |- context [if ?b then _ else _] => destruct b
            | |- context [match rows0 ?x with _ => _ end] => destruct (rows0 x)
            | |- context [match jwt_verify ?a ?b ?c with _ => _ end] =>
                destruct (jwt_verify a b c)
            | |- context [match mfa_secret ?x with _ => _ end] => destruct (mfa_secret x)
            end; try reflexivity).
  - intros user db. unfold me. destruct (rows0 _); reflexivity.
Qed.

(** *** Lockout over several logins *)

(** The store and the answer after a wrong password, for any counter. *)
Lemma login_update_wrong (now : Z) (user : admin_user) (p : string) (db : table) :
  bcrypt_compare p (password_hash user) = false ->
  login_update now user p db
  = (update_where (fun r => String.eqb (id r) (id user))
       (set_failed (or0 (failed_login_attempts user) + 1)
          (if or0 (failed_login_attempts user) + 1 >=? 5
           then Some (now + 15 * 60 * 1000) else None)) db,
     res_status_json 401
       [("error", JStr "Invalid email or password");
        ("attemptsRemaining", JNum (Z.max 0 (5 - (or0 (failed_login_attempts user) + 1))))]).
Proof.
  intros Hbad. unfold login_update. rewrite Hbad. reflexivity.
Qed.

(** The row of the account after one wrong password. *)
Lemma wrong_login_row (now : Z) (e p : string) (db : table) (user : admin_user) :
  truthy_str (Some e) = true ->
  truthy_str (Some p) = true ->
  rows0 (select_where (fun r => String.eqb (email r) (toLowerCase e)) db) = Some user ->
  is_locked user now = false ->
  bcrypt_compare p (password_hash user) = false ->
  rows0 (select_where (fun r => String.eqb (email r) (toLowerCase e))
           (fst (login now (Some e) (Some p) db)))
  = Some (set_failed (or0 (failed_login_attempts user) + 1)
            (if or0 (failed_login_attempts user) + 1 >=? 5
             then Some (now + 15 * 60 * 1000) else None) user).
Proof.
  intros He Hp Hsel Hlock Hbad.
  rewrite (login_checks_password now e p db user He Hp Hsel Hlock).
  rewrite (login_update_wrong now user p db Hbad). cbn [fst].
  rewrite (rows0_select_update _ (fun r => String.eqb (id r) (id user)) _ db user);
    [|reflexivity|exact Hsel].
  rewrite String.eqb_refl. reflexivity.
Qed.

(** Wrong passwords in a row, as long as the threshold is not reached: each
    adds one to the counter and none sets a lockout. *)
Lemma wrong_logins_below_threshold (times : list Z) (e p : string) :
  truthy_str (Some e) = true ->
  truthy_str (Some p) = true ->
  forall (db : table) (user : admin_user),
    rows0 (select_where (fun r => String.eqb (email r) (toLowerCase e)) db) = Some user ->
    locked_until user = None ->
    bcrypt_compare p (password_hash user) = false ->
    or0 (failed_login_attempts user) + Z.of_nat (length times) < 5 ->
    exists user',
      rows0 (select_where (fun r => String.eqb (email r) (toLowerCase e))
               (logins_in_a_row times (Some e) (Some p) db)) = Some user' /\
      or0 (failed_login_attempts user')
      = or0 (failed_login_attempts user) + Z.of_nat (length times) /\
      locked_until user' = None /\
      password_hash user' = password_hash user.
Proof.
  intros He Hp. induction times as [|t times IH]; intros db user Hsel Hnolock Hbad Hbelow.
  - exists user. cbn. repeat split; [exact Hsel | lia | exact Hnolock].
  - cbn [logins_in_a_row fold_left].
    fold (logins_in_a_row times (Some e) (Some p) (fst (login t (Some e) (Some p) db))).
    assert (Hopen : is_locked user t = false) by (unfold is_locked; rewrite Hnolock; reflexivity).
    pose proof (wrong_login_row t e p db user He Hp Hsel Hopen Hbad) as Hrow.
    cbn [length] in Hbelow. rewrite Nat2Z.inj_succ in Hbelow.
    replace (or0 (failed_login_attempts user) + 1 >=? 5) with false in Hrow
      by (symmetry; rewrite Z.geb_leb; apply Z.leb_gt; lia).
    destruct (IH _ _ Hrow) as [user' [Hsel' [Hcount [Hnolock' Hhash]]]];
      [reflexivity | exact Hbad | cbn; lia |].
    exists user'. split; [exact Hsel'|]. cbn in Hcount, Hhash.
    cbn [length]. rewrite Nat2Z.inj_succ. repeat split; [lia | exact Hnolock' | exact Hhash].
Qed.

Lemma logins_in_a_row_last (times : list Z) (last : Z) (e p : option string) (db : table) :
  logins_in_a_row (times ++ [last]) e p db
  = fst (login last e p (logins_in_a_row times e p db)).
Proof.
  unfold logins_in_a_row. rewrite fold_left_app. reflexivity.
Qed.

(** X6: wrong passwords in a row against an account without a lockout: when
    the last of them brings the counter from 4 to 5 (the fifth in a row from
    zero), the account ends with counter 5 and lockout expiry 15 minutes
    after that last attempt, and every login before that expiry is answered
    423 and changes nothing, with the correct password too. *)
Theorem five_wrong_passwords_lock (times : list Z) (last : Z) (e p : string) (db : table)
  (user : admin_user) :
  truthy_str (Some e) = true ->
  truthy_str (Some p) = true ->
  rows0 (select_where (fun r => String.eqb (email r) (toLowerCase e)) db) = Some user ->
  locked_until user = None ->
  bcrypt_compare p (password_hash user) = false ->
  or0 (failed_login_attempts user) + Z.of_nat (length times) = 4 ->
  let db' := logins_in_a_row (times ++ [last]) (Some e) (Some p) db in
  exists user',
    rows0 (select_where (fun r => String.eqb (email r) (toLowerCase e)) db') = Some user' /\
    failed_login_attempts user' = Some 5 /\
    locked_until user' = Some (last + 15 * 60 * 1000) /\
    forall now p',
      truthy_str (Some p') = true ->
      now < last + 15 * 60 * 1000 ->
      fst (login now (Some e) (Some p') db') = db' /\
      status (snd (login now (Some e) (Some p') db')) = 423.
Proof.
  intros He Hp Hsel Hnolock Hbad Hfour db'. subst db'.
  rewrite logins_in_a_row_last.
  destruct (wrong_logins_below_threshold times e p He Hp db user Hsel Hnolock Hbad)
    as [user4 [Hsel4 [Hcount4 [Hnolock4 Hhash4]]]]; [lia|].
  assert (Hopen : is_locked user4 last = false)
    by (unfold is_locked; rewrite Hnolock4; reflexivity).
  rewrite <- Hhash4 in Hbad.
  pose proof (wrong_login_row last e p _ user4 He Hp Hsel4 Hopen Hbad) as Hrow.
  rewrite Hcount4, Hfour in Hrow. cbn [Z.add Z.geb Z.compare Pos.add Pos.compare
    Pos.compare_cont Pos.succ] in Hrow.
  set (db5 := fst (login last (Some e) (Some p) (logins_in_a_row times (Some e) (Some p) db)))
    in *.
  eexists. split; [exact Hrow|]. split; [reflexivity|]. split; [reflexivity|].
  intros now p' Hp' Hearly. unfold login, login_select.
  rewrite He, Hp', Hrow. unfold is_locked. cbn [set_failed locked_until].
  replace (now <? last + 15 * 60 * 1000) with true
    by (symmetry; apply Z.ltb_lt; exact Hearly).
  cbn. auto.
Qed.

(** X7: login writes to one account only: a row whose id is not the id of
    the row found for the email is the same before and after, whatever the
    answer is. *)
Theorem login_touches_one_account (now : Z) (e p : option string) (db : table)
  (n : nat) (r : admin_user) :
  nth_error db n = Some r ->
  (forall e' user,
      e = Some e' ->
      rows0 (select_where (fun r => String.eqb (email r) (toLowerCase e')) db) = Some user ->
      id r <> id user) ->
  nth_error (fst (login now e p db)) n = Some r.
Proof.
  intros Hn Hother. unfold login, login_select.
  destruct e as [e'|], p as [p'|]; try exact Hn.
  destruct (negb (truthy_str (Some e')) || negb (truthy_str (Some p'))); [exact Hn|].
  destruct (rows0 (select_where _ db)) as [user|] eqn:Hsel; [|exact Hn].
  destruct (is_locked user now); [exact Hn|].
  specialize (Hother e' user eq_refl Hsel).
  assert (Hkeep : forall set,
             nth_error (update_where (fun r => String.eqb (id r) (id user)) set db) n = Some r).
  { intros set. unfold update_where. rewrite nth_error_map, Hn. cbn.
    destruct (String.eqb (id r) (id user)) eqn:E; [|reflexivity].
    apply String.eqb_eq in E. contradiction. }
  unfold login_update.
  destruct (negb (bcrypt_compare p' (password_hash user))); [apply Hkeep|].
  destruct (mfa_enabled user && truthy_str (mfa_secret user)); apply Hkeep.
Qed.

(** *** Session tokens and the MFA step *)

(** X8: a session token passes [authenticateToken] with its payload (user
    id, email, role admin) until 8 hours after it was issued, and is
    answered 403 from then on. *)
Theorem session_token_lifetime (scheme : json) (userId email_ : string) (issued now : Z) :
  authenticateToken now (Some [scheme; generateToken userId email_ issued])
  = if now / 1000 >=? issued / 1000 + 8 * 60 * 60
    then inl (res_status_json 403 [("error", JStr "Invalid or expired token")])
    else inr [("userId", JStr userId); ("email", JStr email_); ("role", JStr "admin");
              ("iat", JNum (issued / 1000)); ("exp", JNum (issued / 1000 + 8 * 60 * 60))].
Proof.
  unfold authenticateToken, generateToken, jwt_sign, jwt_verify. cbn [nth_error truthy negb].
  rewrite String.eqb_refl. cbn [negb app field String.eqb Ascii.eqb Bool.eqb].
  unfold JWT_EXPIRES_IN.
  destruct (now / 1000 >=? issued / 1000 + 8 * 60 * 60); reflexivity.
Qed.

(** X9: [authenticateToken] hands over to the route only for a header whose
    second piece is a token signed with the router's key and, when it
    carries an expiry, not yet expired; the user it hands over is the
    payload of that token.  Every other header is answered 401 or 403. *)
Theorem authenticateToken_sound (now : Z) (authHeader : option (list json)) :
  (forall user,
      authenticateToken now authHeader = inr user ->
      exists scheme rest,
        authHeader = Some (scheme :: JJwt user JWT_SECRET :: rest) /\
        (field "exp" user = None \/
         exists e, field "exp" user = Some (JNum e) /\ now / 1000 < e)) /\
  (forall r,
      authenticateToken now authHeader = inl r ->
      status r = 401 \/ status r = 403).
Proof.
  unfold authenticateToken. split.
  - intros user.
    destruct authHeader as [[|scheme [|tok rest]]|]; cbn [nth_error]; try discriminate.
    destruct (negb (truthy (Some tok))); [discriminate|].
    unfold jwt_verify. destruct tok as [| | | |payload key|]; try discriminate.
    destruct (String.eqb key JWT_SECRET) eqn:Ekey; cbn [negb]; [|discriminate].
    apply String.eqb_eq in Ekey. subst key.
    destruct (field "exp" payload) as [[| |e| | |]|] eqn:Eexp; try discriminate.
    + destruct (now / 1000 >=? e) eqn:Ecmp; [discriminate|].
      intros [= <-]. exists scheme, rest. split; [reflexivity|].
      right. exists e. split; [exact Eexp|].
      rewrite Z.geb_leb in Ecmp. apply Z.leb_gt in Ecmp. exact Ecmp.
    + intros [= <-]. exists scheme, rest. split; [reflexivity|]. left. exact Eexp.
  - intros r.
    destruct authHeader as [[|scheme [|tok rest]]|]; cbn [nth_error];
      try (intros [= <-]; left; reflexivity).
    destruct (negb (truthy (Some tok))); [intros [= <-]; left; reflexivity|].
    destruct (jwt_verify tok JWT_SECRET now); [|discriminate].
    intros [= <-]. right. reflexivity.
Qed.

(** X10: the two-step login.  For an account with MFA enabled and a secret,
    whose id selects its row: the correct password makes the page ask for
    the MFA code with a temporary token; that token together with a code
    valid for the secret, sent before the token's five minutes are over,
    makes verify-mfa answer a session token, which the page takes as login
    success and which [authenticateToken] accepts, as that account, for the
    next 8 hours. *)
Theorem login_then_verify_mfa (now now' now'' : Z) (e p secret code : string)
  (db : table) (user : admin_user) (scheme : json) :
  truthy_str (Some e) = true ->
  truthy_str (Some p) = true ->
  rows0 (select_where (fun r => String.eqb (email r) (toLowerCase e)) db) = Some user ->
  rows0 (select_where (id_is (Some (JStr (id user)))) db) = Some user ->
  is_locked user now = false ->
  bcrypt_compare p (password_hash user) = true ->
  mfa_enabled user = true ->
  mfa_secret user = Some secret ->
  truthy_str (Some secret) = true ->
  truthy_str (Some code) = true ->
  totp_verify secret code 2 now' = true ->
  now' / 1000 < now / 1000 + 5 * 60 ->
  now'' / 1000 < now' / 1000 + 8 * 60 * 60 ->
  let db1 := fst (login now (Some e) (Some p) db) in
  let pending := generateTempToken (id user) now in
  let session := generateToken (id user) (email user) now' in
  handleLogin (snd (login now (Some e) (Some p) db)) = ask_mfa_code (Some pending) /\
  fst (verify_mfa now' (Some pending) (Some code) db1) = db1 /\
  handleMFAVerify (snd (verify_mfa now' (Some pending) (Some code) db1))
  = login_success (Some session) /\
  exists payload,
    authenticateToken now'' (Some [scheme; session]) = inr payload /\
    field "userId" payload = Some (JStr (id user)).
Proof.
  intros He Hp Hsel Hid Hopen Hok Hflag Hsecret Hsecret' Hcode Htotp Hfresh Hfresh'
    db1 pending session.
  subst db1 pending session.
  rewrite (login_checks_password now e p db user He Hp Hsel Hopen).
  unfold login_update. rewrite Hok, Hflag, Hsecret, Hsecret'. cbn [negb andb fst snd].
  split; [reflexivity|].
  set (db1 := update_where _ (set_login_ok now) db).
  assert (Hrow : rows0 (select_where (id_is (Some (JStr (id user)))) db1)
                 = Some (set_login_ok now user)).
  { subst db1.
    rewrite (rows0_select_update _ (fun r => String.eqb (id r) (id user))
               (set_login_ok now) db user); [|reflexivity|exact Hid].
    rewrite String.eqb_refl. reflexivity. }
  assert (Hmfa : verify_mfa now' (Some (generateTempToken (id user) now)) (Some code) db1
                 = (db1, res_json [("token", generateToken (id user) (email user) now');
                                   ("user", user_summary user)])).
  { unfold verify_mfa. rewrite Hcode.
    replace (negb (truthy (Some (generateTempToken (id user) now)))) with false
      by reflexivity.
    cbn [negb orb]. rewrite verify_temp_token.
    replace (now' / 1000 >=? now / 1000 + 5 * 60) with false
      by (symmetry; rewrite Z.geb_leb; apply Z.leb_gt; exact Hfresh).
    cbn [field String.eqb Ascii.eqb Bool.eqb truthy negb].
    rewrite Hrow. cbn [set_login_ok mfa_secret mfa_enabled id email].
    rewrite Hsecret, Hflag, Hsecret', Htotp. reflexivity. }
  rewrite Hmfa. cbn [fst snd]. split; [reflexivity|]. split; [reflexivity|].
  rewrite (authenticateToken_session_token scheme (id user) (email user) now' now'' Hfresh').
  eexists. split; reflexivity.
Qed.

(** *** MFA enrollment, continued *)

Lemma rows0_select_update_any (p q : admin_user -> bool) (set : admin_user -> admin_user)
  (db : table) :
  (forall r, p (set r) = p r) ->
  rows0 (select_where p (update_where q set db))
  = option_map (fun u => if q u then set u else u) (rows0 (select_where p db)).
Proof.
  intros Hset. destruct (rows0 (select_where p db)) as [u|] eqn:E.
  - apply rows0_select_update; assumption.
  - cbn. apply rows0_select_none. intros r' Hin.
    destruct (update_where_In _ _ _ _ Hin) as [r [Hr ->]].
    assert (Hp : p r = false).
    { destruct (p r) eqn:Hp; [|reflexivity].
      destruct (rows0_select_exists p db r Hr Hp) as [u Hu]. congruence. }
    destruct (q r); [rewrite Hset|]; exact Hp.
Qed.

(** X11: starting an MFA enrollment changes no login answer: on the store
    setup-mfa leaves, whoever called it and whatever secret it drew, every
    login request is answered as on the store before. *)
Theorem setup_mfa_keeps_login_answers (secret qr : string) (user : list (string * json))
  (now : Z) (e p : option string) (db : table) :
  snd (login now e p (fst (setup_mfa secret qr user db))) = snd (login now e p db).
Proof.
  unfold setup_mfa. destruct (rows0 (select_where (id_is (field "userId" user)) db));
    [|reflexivity].
  cbn [fst]. unfold login, login_select.
  destruct e as [e'|], p as [p'|]; try reflexivity.
  destruct (negb (truthy_str (Some e')) || negb (truthy_str (Some p'))); [reflexivity|].
  rewrite rows0_select_update_any by reflexivity.
  destruct (rows0 (select_where _ db)) as [row|]; [|reflexivity].
  cbn [option_map].
  destruct row as [i em nm ph en sec tmp fl lk rt rte cr ll pc].
  destruct (id_is (field "userId" user) _);
    unfold is_locked; cbn [set_mfa_secret_temp locked_until];
    (destruct lk as [t|]; [destruct (now <? t); [reflexivity|]|]);
    cbv beta iota; unfold login_update;
    cbn [set_mfa_secret_temp locked_until password_hash failed_login_attempts
         mfa_enabled mfa_secret id email name user_summary];
    destruct (negb (bcrypt_compare p' ph)); try reflexivity;
    destruct (en && truthy_str sec); reflexivity.
Qed.

(** X12: enrollment from start to end.  For a session whose user id selects
    the row of an account, setup-mfa followed by enable-mfa with a code
    valid for the secret setup-mfa drew leaves that account with MFA
    enabled under that secret and nothing pending; from then on the correct
    password alone is answered with [requiresMFA] and a temporary token, no
    session token. *)
Theorem setup_then_enable_mfa (now now' : Z) (secret qr code e p : string)
  (user : list (string * json)) (db : table) (row : admin_user) :
  truthy_str (Some secret) = true ->
  truthy_str (Some code) = true ->
  truthy_str (Some e) = true ->
  truthy_str (Some p) = true ->
  rows0 (select_where (id_is (field "userId" user)) db) = Some row ->
  rows0 (select_where (fun r => String.eqb (email r) (toLowerCase e)) db) = Some row ->
  totp_verify secret code 2 now = true ->
  is_locked row now' = false ->
  bcrypt_compare p (password_hash row) = true ->
  let db2 := fst (enable_mfa now (Some code) user (fst (setup_mfa secret qr user db))) in
  (exists row2,
      rows0 (select_where (id_is (field "userId" user)) db2) = Some row2 /\
      mfa_enabled row2 = true /\
      mfa_secret row2 = Some secret /\
      mfa_secret_temp row2 = None) /\
  snd (login now' (Some e) (Some p) db2)
  = res_json [("requiresMFA", JBool true); ("tempToken", generateTempToken (id row) now')].
Proof.
  intros Hsecret Hcode He Hp Hid Hsel Htotp Hopen Hok db2. subst db2.
  destruct (rows0_select_sound _ _ _ Hid) as [Hq _].
  assert (Hpres : forall set, (forall r, id (set r) = id r) ->
                              forall r, id_is (field "userId" user) (set r)
                                        = id_is (field "userId" user) r).
  { intros set Hset r. unfold id_is. rewrite Hset. reflexivity. }
  unfold setup_mfa. rewrite Hid. cbn [fst].
  set (db1 := update_where _ (set_mfa_secret_temp secret) db).
  assert (Hid1 : rows0 (select_where (id_is (field "userId" user)) db1)
                 = Some (set_mfa_secret_temp secret row)).
  { subst db1. rewrite rows0_select_update_any by (apply Hpres; reflexivity).
    rewrite Hid. cbn. rewrite Hq. reflexivity. }
  assert (Hsel1 : rows0 (select_where (fun r => String.eqb (email r) (toLowerCase e)) db1)
                  = Some (set_mfa_secret_temp secret row)).
  { subst db1. rewrite rows0_select_update_any by reflexivity.
    rewrite Hsel. cbn. rewrite Hq. reflexivity. }
  unfold enable_mfa. rewrite Hcode, Hid1.
  cbn [set_mfa_secret_temp mfa_secret_temp negb]. rewrite Hsecret, Htotp. cbn [negb fst].
  set (db2 := update_where _ set_mfa_enabled db1).
  assert (Hq1 : id_is (field "userId" user) (set_mfa_secret_temp secret row) = true).
  { rewrite (Hpres (set_mfa_secret_temp secret)) by reflexivity. exact Hq. }
  split.
  - eexists. split.
    + subst db2. rewrite rows0_select_update_any by (apply Hpres; reflexivity).
      rewrite Hid1. cbn [option_map]. rewrite Hq1. reflexivity.
    + cbn. auto.
  - assert (Hsel2 : rows0 (select_where (fun r => String.eqb (email r) (toLowerCase e)) db2)
                    = Some (set_mfa_enabled (set_mfa_secret_temp secret row))).
    { subst db2. rewrite rows0_select_update_any by reflexivity.
      rewrite Hsel1. cbn [option_map]. rewrite Hq1. reflexivity. }
    rewrite (login_checks_password now' e p db2 _ He Hp Hsel2 Hopen).
    unfold login_update. cbn [set_mfa_enabled set_mfa_secret_temp password_hash
      mfa_enabled mfa_secret mfa_secret_temp id].
    rewrite Hok, Hsecret. reflexivity.
Qed.

(** X13: disable-mfa asks for the password again.  With a wrong password it
    answers 401 and changes nothing.  With the correct one the account ends
    with the MFA flag off and no active secret, and the correct password at
    login is then answered with a session token at once. *)
Theorem disable_mfa_needs_password (now : Z) (e p guess : string)
  (user : list (string * json)) (db : table) (row : admin_user) :
  truthy_str (Some e) = true ->
  truthy_str (Some p) = true ->
  truthy_str (Some guess) = true ->
  rows0 (select_where (id_is (field "userId" user)) db) = Some row ->
  rows0 (select_where (fun r => String.eqb (email r) (toLowerCase e)) db) = Some row ->
  bcrypt_compare p (password_hash row) = true ->
  bcrypt_compare guess (password_hash row) = false ->
  is_locked row now = false ->
  let db' := fst (disable_mfa (Some p) user db) in
  disable_mfa (Some guess) user db
  = (db, res_status_json 401 [("error", JStr "Invalid password")]) /\
  snd (disable_mfa (Some p) user db)
  = res_json [("message", JStr "MFA disabled successfully")] /\
  (exists row',
      rows0 (select_where (id_is (field "userId" user)) db') = Some row' /\
      mfa_enabled row' = false /\
      mfa_secret row' = None) /\
  snd (login now (Some e) (Some p) db')
  = res_json [("token", generateToken (id row) (email row) now);
              ("user", user_summary row)].
Proof.
  intros He Hp Hguess Hid Hsel Hok Hbad Hopen db'. subst db'.
  destruct (rows0_select_sound _ _ _ Hid) as [Hq _].
  unfold disable_mfa. rewrite Hp, Hguess, Hid, Hok, Hbad. cbn [negb fst snd].
  split; [reflexivity|]. split; [reflexivity|].
  set (db' := update_where _ set_mfa_disabled db).
  split.
  - eexists. split.
    + subst db'. rewrite rows0_select_update_any.
      * rewrite Hid. cbn [option_map]. rewrite Hq. reflexivity.
      * intros r. unfold id_is. reflexivity.
    + cbn. auto.
  - assert (Hsel' : rows0 (select_where (fun r => String.eqb (email r) (toLowerCase e)) db')
                    = Some (set_mfa_disabled row)).
    { subst db'. rewrite rows0_select_update_any by reflexivity.
      rewrite Hsel. cbn [option_map]. rewrite Hq. reflexivity. }
    rewrite (login_checks_password now e p db' _ He Hp Hsel' Hopen).
    unfold login_update. cbn [set_mfa_disabled password_hash mfa_enabled]. rewrite Hok.
    reflexivity.
Qed.

(** *** The login page on the answers of login *)

(** X14: the login page shows one and the same message for an unknown email
    and for a wrong password on a registered, non-locked account: it reads
    the [error] text of the answer and nothing else. *)
Theorem page_same_message_unknown_or_wrong (now1 now2 : Z) (e1 p1 e2 p2 : string)
  (db1 db2 : table) (user : admin_user) :
  truthy_str (Some e1) = true ->
  truthy_str (Some p1) = true ->
  truthy_str (Some e2) = true ->
  truthy_str (Some p2) = true ->
  rows0 (select_where (fun r => String.eqb (email r) (toLowerCase e1)) db1) = None ->
  rows0 (select_where (fun r => String.eqb (email r) (toLowerCase e2)) db2) = Some user ->
  is_locked user now2 = false ->
  bcrypt_compare p2 (password_hash user) = false ->
  handleLogin (snd (login now1 (Some e1) (Some p1) db1))
  = show_error (JStr "Invalid email or password") /\
  handleLogin (snd (login now2 (Some e2) (Some p2) db2))
  = show_error (JStr "Invalid email or password").
Proof.
  intros He1 Hp1 He2 Hp2 Hnone Hsel Hopen Hbad. split.
  - rewrite (login_unknown_email now1 e1 p1 db1 He1 Hp1 Hnone). reflexivity.
  - rewrite (login_checks_password now2 e2 p2 db2 user He2 Hp2 Hsel Hopen).
    rewrite (login_update_wrong now2 user p2 db2 Hbad). reflexivity.
Qed.

(** *** Two wrong passwords in flight, below the threshold *)

(** X15: a lost count.  Two wrong-password logins for one account with
    failed counter 3 and no lockout: served one after the other they leave
    counter 5 and the lockout set; when both read the row before either
    writes, both write counter 4, and the account ends with counter 4 and
    no lockout. *)
Theorem interleaved_logins_lose_a_count (nowA nowB : Z) (e pA pB : string) (db : table)
  (user : admin_user) :
  truthy_str (Some e) = true ->
  truthy_str (Some pA) = true ->
  truthy_str (Some pB) = true ->
  rows0 (select_where (fun r => String.eqb (email r) (toLowerCase e)) db) = Some user ->
  failed_login_attempts user = Some 3 ->
  locked_until user = None ->
  bcrypt_compare pA (password_hash user) = false ->
  bcrypt_compare pB (password_hash user) = false ->
  let start_a := Waiting (Some e) (Some pA) in
  let start_b := Waiting (Some e) (Some pB) in
  (exists a b db2 row2,
      run_two nowA nowB [false; false; true; true] start_a start_b db = (a, b, db2) /\
      rows0 (select_where (fun r => String.eqb (email r) (toLowerCase e)) db2) = Some row2 /\
      failed_login_attempts row2 = Some 5 /\
      locked_until row2 = Some (nowB + 15 * 60 * 1000)) /\
  (exists a b db2 row2,
      run_two nowA nowB [false; true; false; true] start_a start_b db = (a, b, db2) /\
      rows0 (select_where (fun r => String.eqb (email r) (toLowerCase e)) db2) = Some row2 /\
      failed_login_attempts row2 = Some 4 /\
      locked_until row2 = None).
Proof.
  intros He HpA HpB Hsel H3 Hnolock HbadA HbadB start_a start_b. subst start_a start_b.
  assert (Hopen : forall now, is_locked user now = false)
    by (intros now; unfold is_locked; rewrite Hnolock; reflexivity).
  assert (HselA : login_select nowA (Some e) (Some pA) db = inr (user, pA)).
  { unfold login_select. rewrite He, HpA, Hsel, Hopen. reflexivity. }
  assert (HselB : login_select nowB (Some e) (Some pB) db = inr (user, pB)).
  { unfold login_select. rewrite He, HpB, Hsel, Hopen. reflexivity. }
  assert (HupdA := fun db0 => login_update_wrong nowA user pA db0 HbadA).
  assert (HupdB := fun db0 => login_update_wrong nowB user pB db0 HbadB).
  rewrite H3 in HupdA, HupdB. cbn [or0] in HupdA, HupdB.
  change (3 + 1 >=? 5) with false in HupdA, HupdB.
  set (db1 := update_where (fun r => String.eqb (id r) (id user)) (set_failed (3 + 1) None) db)
    in *.
  assert (Hrow1 : rows0 (select_where (fun r => String.eqb (email r) (toLowerCase e)) db1)
                  = Some (set_failed (3 + 1) None user)).
  { subst db1. rewrite rows0_select_update_any by reflexivity.
    rewrite Hsel. cbn [option_map]. rewrite String.eqb_refl. reflexivity. }
  split.
  - assert (HselB1 : login_select nowB (Some e) (Some pB) db1
                     = inr (set_failed (3 + 1) None user, pB)).
    { unfold login_select. rewrite He, HpB, Hrow1. reflexivity. }
    cbn [run_two step_login]. rewrite HselA.
    cbn [run_two step_login]. rewrite HupdA. fold db1.
    cbn [run_two step_login]. rewrite HselB1.
    cbn [run_two step_login].
    rewrite (login_update_wrong nowB (set_failed (3 + 1) None user) pB db1 HbadB).
    do 4 eexists. split; [reflexivity|]. split.
    + rewrite rows0_select_update_any by reflexivity.
      rewrite Hrow1. cbn [option_map set_failed id]. rewrite String.eqb_refl. reflexivity.
    + split; reflexivity.
  - run_schedule HselA HselB HupdA HupdB. fold db1.
    do 4 eexists. split; [reflexivity|]. split.
    + rewrite rows0_select_update_any by reflexivity.
      rewrite Hrow1. cbn [option_map set_failed id]. rewrite String.eqb_refl. reflexivity.
    + split; reflexivity.
Qed.

(** *** Google federation, continued *)

Lemma split_on_nonempty (sep : ascii) (s : string) : split_on sep s <> [].
Proof.
  destruct s as [|c r]; cbn; [discriminate|].
  destruct (Ascii.eqb c sep); [discriminate|].
  destruct (split_on sep r); discriminate.
Qed.

Lemma allowedEmails_when_set (s : string) :
  GOOGLE_ALLOWED_EMAILS = Some s -> (Z.of_nat (length allowedEmails) =? 0) = false.
Proof.
  intros E. unfold allowedEmails. rewrite E. rewrite length_map.
  pose proof (split_on_nonempty "," s) as Hne.
  destruct (split_on "," s); [contradiction | reflexivity].
Qed.

(** Without the environment variable the callback refuses every email as
    "whitelist not configured". *)
Lemma google_verify_unset (now : Z) (userId randomPassword salt : string)
  (profile : google_profile) (db : table) (e : string) :
  hd_error (emails profile) = Some e ->
  truthy_str (Some e) = true ->
  GOOGLE_ALLOWED_EMAILS = None ->
  google_verify now userId randomPassword salt profile db
  = (db, done_error "Google OAuth whitelist not configured").
Proof.
  intros Hhd He En. unfold google_verify, allowedEmails. rewrite Hhd, He, En. reflexivity.
Qed.

(** With the variable set, an email it does not list is refused as not
    authorized. *)
Lemma google_verify_not_listed (now : Z) (userId randomPassword salt : string)
  (profile : google_profile) (db : table) (e : string) :
  hd_error (emails profile) = Some e ->
  truthy_str (Some e) = true ->
  GOOGLE_ALLOWED_EMAILS <> None ->
  includes allowedEmails (toLowerCase e) = false ->
  google_verify now userId randomPassword salt profile db
  = (db, done_error "This Google account is not authorized to access MediFlow AI").
Proof.
  intros Hhd He Hset Hout. unfold google_verify. rewrite Hhd, He. cbn [negb].
  case_eq GOOGLE_ALLOWED_EMAILS; [|intros En; contradiction].
  intros s0 Es. rewrite (allowedEmails_when_set s0 Es), Hout. reflexivity.
Qed.

(** X16: for a profile with an email, the callback ends in "whitelist not
    configured" exactly when the environment variable is not set.  A
    variable that is set, even to the empty string, always yields a
    non-empty list, so every email it does not list is refused as not
    authorized instead. *)
Theorem whitelist_not_configured_iff_unset (now : Z) (userId randomPassword salt : string)
  (profile : google_profile) (db : table) (e : string) :
  hd_error (emails profile) = Some e ->
  truthy_str (Some e) = true ->
  (snd (google_verify now userId randomPassword salt profile db)
   = done_error "Google OAuth whitelist not configured"
   <-> GOOGLE_ALLOWED_EMAILS = None) /\
  (GOOGLE_ALLOWED_EMAILS <> None ->
   includes allowedEmails (toLowerCase e) = false ->
   google_verify now userId randomPassword salt profile db
   = (db, done_error "This Google account is not authorized to access MediFlow AI")).
Proof.
  intros Hhd He. unfold google_verify. rewrite Hhd, He. cbn [negb].
  case_eq GOOGLE_ALLOWED_EMAILS.
  - intros s Es. rewrite (allowedEmails_when_set s Es). split.
    + split; [|discriminate]. intros H. exfalso.
      destruct (negb (includes allowedEmails (toLowerCase e))); [discriminate H|].
      destruct (rows0 (select_where _ db)); [discriminate H|].
      destruct (count_users db >=? 5); discriminate H.
    + intros _ Hout. rewrite Hout. reflexivity.
  - intros En. split.
    + split; [reflexivity|]. intros _. unfold allowedEmails. rewrite En. reflexivity.
    + intros H. contradiction.
Qed.

Lemma rows0_select_app_none (p : admin_user -> bool) (db : table) (r : admin_user) :
  rows0 (select_where p db) = None ->
  rows0 (select_where p (db ++ [r])%list) = if p r then Some r else None.
Proof.
  unfold rows0, select_where. induction db as [|x db IH]; cbn.
  - intros _. destruct (p r); reflexivity.
  - destruct (p x); cbn; [discriminate | exact IH].
Qed.

(** X17: a whitelisted email without an account, below the cap: the
    callback appends one row and ends in it; the row has the lower-cased
    email, MFA off, creation and last login at [now], and as name the
    display name of the profile or, without one, what precedes the first at
    sign of the email.  A second callback for the same email finds that row
    and appends nothing. *)
Theorem google_creates_account_once (now now2 : Z)
  (userId randomPassword salt userId2 randomPassword2 salt2 : string)
  (profile : google_profile) (db : table) (e : string) :
  hd_error (emails profile) = Some e ->
  truthy_str (Some e) = true ->
  includes allowedEmails (toLowerCase e) = true ->
  rows0 (select_where (fun r => String.eqb (email r) (toLowerCase e)) db) = None ->
  count_users db < 5 ->
  exists user,
    google_verify now userId randomPassword salt profile db
    = ((db ++ [user])%list, done_user user) /\
    id user = userId /\
    email user = toLowerCase e /\
    name user = (if truthy_str (displayName profile)
                 then match displayName profile with Some n => n | None => "" end
                 else hd "" (split_on "@" e)) /\
    password_hash user = bcrypt_hash randomPassword 12 salt /\
    mfa_enabled user = false /\
    created_at user = Some now /\
    last_login user = Some now /\
    snd (google_verify now2 userId2 randomPassword2 salt2 profile (db ++ [user])%list)
    = done_user user /\
    length (fst (google_verify now2 userId2 randomPassword2 salt2 profile (db ++ [user])%list))
    = S (length db).
Proof.
  intros Hhd He Hin Hnone Hroom.
  eexists. split.
  - unfold google_verify at 1.
    rewrite Hhd, He, (includes_nonempty _ _ Hin), Hin, Hnone. cbn [negb].
    replace (count_users db >=? 5) with false
      by (symmetry; rewrite Z.geb_leb; apply Z.leb_gt; exact Hroom).
    reflexivity.
  - cbn [new_google_user id email name password_hash mfa_enabled created_at last_login].
    repeat (split; [reflexivity|]).
    unfold google_verify.
    rewrite Hhd, He, (includes_nonempty _ _ Hin), Hin. cbn [negb].
    rewrite (rows0_select_app_none _ db _ Hnone).
    cbn [new_google_user email]. rewrite String.eqb_refl. cbn [fst snd].
    split; [reflexivity|].
    unfold update_where. rewrite length_map. apply last_length.
Qed.

(** Served alone, the round trips of a callback are [google_verify]. *)
Lemma google_round_trips_alone (q : federation_request) (db : table) :
  run_google q 3 Arrived db
  = (Finished (snd (google_verify (f_now q) (f_userId q) (f_randomPassword q) (f_salt q)
                      (f_profile q) db)),
     fst (google_verify (f_now q) (f_userId q) (f_randomPassword q) (f_salt q)
            (f_profile q) db)).
Proof.
  unfold google_verify. cbn [run_google step_google].
  destruct (hd_error (emails (f_profile q))) as [e|]; [|reflexivity].
  destruct (negb (truthy_str (Some e))); [reflexivity|].
  destruct (Z.of_nat (length allowedEmails) =? 0); [reflexivity|].
  destruct (negb (includes allowedEmails (toLowerCase e))); [reflexivity|].
  destruct (rows0 _); [reflexivity|].
  cbn [step_google]. destruct (count_users db >=? 5); reflexivity.
Qed.

(** One run of [google_verify] never leaves more rows than 5, or than there
    were. *)
Lemma google_verify_alone_bound (now : Z) (userId randomPassword salt : string)
  (profile : google_profile) (db : table) :
  count_users (fst (google_verify now userId randomPassword salt profile db))
  <= Z.max 5 (count_users db).
Proof.
  unfold google_verify, count_users.
  destruct (hd_error (emails profile)) as [e|]; cbn [fst]; [|lia].
  destruct (negb (truthy_str (Some e))); cbn [fst]; [lia|].
  destruct (Z.of_nat (length allowedEmails) =? 0); cbn [fst]; [lia|].
  destruct (negb (includes allowedEmails (toLowerCase e))); cbn [fst]; [lia|].
  destruct (rows0 _); cbn [fst].
  - unfold update_where. rewrite length_map. lia.
  - destruct (Z.of_nat (length db) >=? 5) eqn:E; cbn [fst]; [lia|].
    rewrite Z.geb_leb in E. apply Z.leb_gt in E.
    rewrite last_length, Nat2Z.inj_succ. lia.
Qed.

(** Runs a schedule of two callbacks with the equations given for their
    round trips. *)
Ltac run_callbacks HselA HselB HcountA HcountB HinsA HinsB :=
  repeat (progress cbn [run_two_google negb]
          || rewrite HselA || rewrite HselB || rewrite HcountA || rewrite HcountB
          || rewrite HinsA || rewrite HinsB).

(** X18: the cap of 5 rows holds for a callback served alone and not for
    callbacks that overlap.  A callback whose round trips run with nothing in
    between never leaves more rows than 5, or than there were.  Two
    callbacks for two different whitelisted emails without accounts, on a
    table below the cap, of which both select and both count before either
    inserts, both insert: the table gains two rows, so from 4 rows it ends
    with 6. *)
Theorem google_cap_alone_not_overlapping :
  (forall q db,
      count_users (snd (run_google q 3 Arrived db)) <= Z.max 5 (count_users db)) /\
  (forall qa qb db ea eb (i j k : bool),
      hd_error (emails (f_profile qa)) = Some ea ->
      hd_error (emails (f_profile qb)) = Some eb ->
      truthy_str (Some ea) = true ->
      truthy_str (Some eb) = true ->
      includes allowedEmails (toLowerCase ea) = true ->
      includes allowedEmails (toLowerCase eb) = true ->
      rows0 (select_where (fun r => String.eqb (email r) (toLowerCase ea)) db) = None ->
      rows0 (select_where (fun r => String.eqb (email r) (toLowerCase eb)) db) = None ->
      toLowerCase ea <> toLowerCase eb ->
      f_userId qa <> f_userId qb ->
      count_users db < 5 ->
      exists ua ub db',
        run_two_google qa qb [i; negb i; j; negb j; k; negb k] Arrived Arrived db
        = (Finished (done_user ua), Finished (done_user ub), db') /\
        email ua = toLowerCase ea /\
        email ub = toLowerCase eb /\
        In ua db' /\
        In ub db' /\
        count_users db' = count_users db + 2 /\
        (count_users db = 4 -> count_users db' = 6)).
Proof.
  split.
  - intros q db. rewrite google_round_trips_alone. cbn [snd].
    apply google_verify_alone_bound.
  - intros qa qb db ea eb i j k HhdA HhdB HeA HeB HinA HinB HnoneA HnoneB _ _ Hroom.
    assert (HselA : step_google qa Arrived db = (NoAccount ea, db)).
    { cbn [step_google]. rewrite HhdA, HeA, (includes_nonempty _ _ HinA), HinA, HnoneA.
      reflexivity. }
    assert (HselB : step_google qb Arrived db = (NoAccount eb, db)).
    { cbn [step_google]. rewrite HhdB, HeB, (includes_nonempty _ _ HinB), HinB, HnoneB.
      reflexivity. }
    assert (Hbelow : (count_users db >=? 5) = false)
      by (rewrite Z.geb_leb; apply Z.leb_gt; exact Hroom).
    assert (HcountA : step_google qa (NoAccount ea) db = (Room ea, db))
      by (cbn [step_google]; rewrite Hbelow; reflexivity).
    assert (HcountB : step_google qb (NoAccount eb) db = (Room eb, db))
      by (cbn [step_google]; rewrite Hbelow; reflexivity).
    set (ua := new_google_user (f_now qa) (f_userId qa) (toLowerCase ea)
                 (if truthy_str (displayName (f_profile qa))
                  then match displayName (f_profile qa) with Some n => n | None => "" end
                  else hd "" (split_on "@" ea))
                 (bcrypt_hash (f_randomPassword qa) 12 (f_salt qa))).
    set (ub := new_google_user (f_now qb) (f_userId qb) (toLowerCase eb)
                 (if truthy_str (displayName (f_profile qb))
                  then match displayName (f_profile qb) with Some n => n | None => "" end
                  else hd "" (split_on "@" eb))
                 (bcrypt_hash (f_randomPassword qb) 12 (f_salt qb))).
    assert (HinsA : forall db0, step_google qa (Room ea) db0
                                = (Finished (done_user ua), (db0 ++ [ua])%list))
      by reflexivity.
    assert (HinsB : forall db0, step_google qb (Room eb) db0
                                = (Finished (done_user ub), (db0 ++ [ub])%list))
      by reflexivity.
    assert (Hlen : forall x y : admin_user,
               count_users ((db ++ [x]) ++ [y])%list = count_users db + 2).
    { intros x y. unfold count_users. rewrite !last_length, !Nat2Z.inj_succ. lia. }
    exists ua, ub.
    destruct i, j, k; run_callbacks HselA HselB HcountA HcountB HinsA HinsB;
      eexists; (split; [reflexivity|]);
      (split; [reflexivity|]); (split; [reflexivity|]);
      (split; [rewrite !in_app_iff; cbn; tauto|]);
      (split; [rewrite !in_app_iff; cbn; tauto|]);
      (split; [apply Hlen | intros H4; rewrite Hlen, H4; reflexivity]).
Qed.

(** X19: federation never touches local credentials: every row of the table
    is, after the callback, at the same place with the same id, email,
    password hash, MFA flag and secret, failed counter and lockout expiry. *)
Theorem google_verify_keeps_credentials (now : Z) (userId randomPassword salt : string)
  (profile : google_profile) (db : table) (n : nat) (r : admin_user) :
  nth_error db n = Some r ->
  exists r',
    nth_error (fst (google_verify now userId randomPassword salt profile db)) n = Some r' /\
    id r' = id r /\
    email r' = email r /\
    password_hash r' = password_hash r /\
    mfa_enabled r' = mfa_enabled r /\
    mfa_secret r' = mfa_secret r /\
    failed_login_attempts r' = failed_login_attempts r /\
    locked_until r' = locked_until r.
Proof.
  intros Hn.
  assert (Hsame : exists r', nth_error db n = Some r' /\ id r' = id r /\ email r' = email r /\
                            password_hash r' = password_hash r /\
                            mfa_enabled r' = mfa_enabled r /\ mfa_secret r' = mfa_secret r /\
                            failed_login_attempts r' = failed_login_attempts r /\
                            locked_until r' = locked_until r)
    by (exists r; repeat split; auto).
  unfold google_verify.
  destruct (hd_error (emails profile)) as [e|]; cbn [fst]; [|exact Hsame].
  destruct (negb (truthy_str (Some e))); cbn [fst]; [exact Hsame|].
  destruct (Z.of_nat (length allowedEmails) =? 0); cbn [fst]; [exact Hsame|].
  destruct (negb (includes allowedEmails (toLowerCase e))); cbn [fst]; [exact Hsame|].
  destruct (rows0 _) as [user|]; cbn [fst].
  - unfold update_where. rewrite nth_error_map, Hn. cbn [option_map].
    destruct (String.eqb (id r) (id user)); eexists; (split; [reflexivity|]);
      cbn; repeat split; reflexivity.
  - destruct (count_users db >=? 5); cbn [fst]; [exact Hsame|].
    exists r. split; [|repeat split; reflexivity].
    rewrite nth_error_app1; [exact Hn|]. apply nth_error_Some. congruence.
Qed.

(** X20: from the verify callback to the login page.  With Google OAuth
    configured, each refusal of the verify callback leaves the table as it
    was and reaches the page as its own message: a profile without email as
    the generic failure, an unset whitelist, an email not on the whitelist,
    and a new email when the table has 5 rows or more. *)
Theorem federation_refusals_reach_the_page (now : Z) (userId randomPassword salt : string)
  (profile : google_profile) (db : table) :
  truthy_str GOOGLE_CLIENT_ID = true ->
  truthy_str GOOGLE_CLIENT_SECRET = true ->
  let outcome := google_verify now userId randomPassword salt profile db in
  let page := handleOAuthRedirect (google_callback now (snd outcome)) in
  (truthy_str (hd_error (emails profile)) = false ->
   fst outcome = db /\
   page = show_error (JStr "Google sign-in failed. Please try again or use email/password.")) /\
  (forall e,
      hd_error (emails profile) = Some e ->
      truthy_str (Some e) = true ->
      (GOOGLE_ALLOWED_EMAILS = None ->
       fst outcome = db /\
       page = show_error (JStr "Google OAuth whitelist not configured. Contact administrator.")) /\
      (GOOGLE_ALLOWED_EMAILS <> None ->
       includes allowedEmails (toLowerCase e) = false ->
       fst outcome = db /\
       page = show_error (JStr "This Google account is not authorized. Only whitelisted accounts can sign in.")) /\
      (includes allowedEmails (toLowerCase e) = true ->
       rows0 (select_where (fun r => String.eqb (email r) (toLowerCase e)) db) = None ->
       5 <= count_users db ->
       fst outcome = db /\
       page = show_error (JStr "Maximum number of admin accounts reached. Contact administrator."))).
Proof.
  intros Hid Hsecret outcome page. subst page outcome.
  unfold google_callback. rewrite Hid, Hsecret. cbn [negb orb].
  split.
  - intros Hnone. unfold google_verify.
    destruct (hd_error (emails profile)) as [e|]; [|split; reflexivity].
    rewrite Hnone. split; reflexivity.
  - intros e Hhd He.
    split; [|split].
    + intros En.
      rewrite (google_verify_unset now userId randomPassword salt profile db e Hhd He En).
      split; reflexivity.
    + intros Hset Hnot.
      rewrite (google_verify_not_listed now userId randomPassword salt profile db e
                 Hhd He Hset Hnot).
      split; reflexivity.
    + intros Hin Hnone Hfull. unfold google_verify.
      rewrite Hhd, He, (includes_nonempty _ _ Hin), Hin, Hnone. cbn [negb].
      replace (count_users db >=? 5) with true by (symmetry; apply Z.geb_le; exact Hfull).
      split; reflexivity.
Qed.

(** X21: from the verify callback to a session.  With Google OAuth
    configured, an account the verify callback ends in reaches the page as
    a login success with a session token, which [authenticateToken] accepts
    as that account for the next 8 hours. *)
Theorem federation_success_is_a_session (now now' : Z) (user : admin_user) (scheme : json) :
  truthy_str GOOGLE_CLIENT_ID = true ->
  truthy_str GOOGLE_CLIENT_SECRET = true ->
  now' / 1000 < now / 1000 + 8 * 60 * 60 ->
  exists token payload,
    handleOAuthRedirect (google_callback now (done_user user)) = login_success (Some token) /\
    authenticateToken now' (Some [scheme; token]) = inr payload /\
    field "userId" payload = Some (JStr (id user)) /\
    field "email" payload = Some (JStr (email user)) /\
    field "temp" payload = None.
Proof.
  intros Hid Hsecret Hfresh. unfold google_callback. rewrite Hid, Hsecret. cbn [negb orb].
  eexists. eexists. split; [reflexivity|]. split.
  - exact (authenticateToken_session_token scheme (id user) (email user) now now' Hfresh).
  - repeat split; reflexivity.
Qed.

End Router.

(** ** The properties on the concrete deployment *)

#[local] Existing Instance Sample.ext.

(** C1: a temporary token is let through by [authenticateToken].  Carol has
    MFA enabled; her password alone earns the five-minute temporary token,
    and one second later that token, sent as a bearer token, reads her
    account at /me and, with the password, switches her MFA off at
    /disable-mfa: no TOTP code was ever given. *)
Theorem temp_token_passes_authenticateToken :
  let db := Sample.full_table in
  let pending := generateTempToken Sample.secret "u3" 1000000 in
  let header := Some [JStr "Bearer"; pending] in
  body_field "tempToken"
    (snd (login Sample.secret 1000000 (Some "carol@clinic.org")
            (Some "tr0ub4dor and three") db)) = Some pending /\
  authenticateToken Sample.secret 1001000 header
  = inr [("userId", JStr "u3"); ("temp", JBool true);
         ("iat", JNum 1000); ("exp", JNum 1300)] /\
  guarded Sample.secret 1001000 header me db
  = (db, res_json [("user", JObj [("id", JStr "u3"); ("email", JStr "carol@clinic.org");
                                  ("name", JStr "Carol"); ("mfa_enabled", JBool true);
                                  ("created_at", JNum 1000); ("last_login", JNull)])]) /\
  snd (guarded Sample.secret 1001000 header (disable_mfa (Some "tr0ub4dor and three")) db)
  = res_json [("message", JStr "MFA disabled successfully")] /\
  map mfa_enabled
    (fst (guarded Sample.secret 1001000 header (disable_mfa (Some "tr0ub4dor and three")) db))
  = [false; false; true; false; false].
Proof.
  cbv zeta. split; [reflexivity|]. split.
  - exact (authenticateToken_temp_token Sample.secret (JStr "Bearer") "u3"
             1000000 1001000 eq_refl).
  - repeat split; reflexivity.
Qed.

(** C2: the answers to an unknown email and to a wrong password for a
    registered, non-locked account (Frank) have the same status and the
    same error text, and differ in one field: only the second carries
    [attemptsRemaining]. *)
Theorem login_unknown_email_vs_wrong_password :
  let db := Sample.full_table in
  let unknown := snd (login Sample.secret 1000000 (Some "mallory@clinic.org") (Some "guess") db) in
  let wrong := snd (login Sample.secret 1000000 (Some "frank@clinic.org") (Some "guess") db) in
  status unknown = 401 /\
  status wrong = 401 /\
  body_field "error" unknown = body_field "error" wrong /\
  body_field "attemptsRemaining" unknown = None /\
  body_field "attemptsRemaining" wrong = Some (JNum 4) /\
  unknown <> wrong.
Proof.
  cbv zeta.
  rewrite (login_unknown_email (Ext := Sample.ext) Sample.secret 1000000 "mallory@clinic.org" "guess"
             Sample.full_table eq_refl eq_refl eq_refl).
  repeat split; try reflexivity.
  intros H. apply (f_equal (body_field "attemptsRemaining")) in H.
  vm_compute in H. discriminate H.
Qed.

(** C3, as stated, fails: a password reset that succeeds on an account with
    three failed logins leaves the counter at three. *)
Lemma reset_password_leaves_counter :
  let result := reset_password 1000000 "salt" (Some "r3s3t") (Some "a new long password")
                  [Sample.alice_resetting] in
  snd result = res_json [("message", JStr "Password reset successful")] /\
  map failed_login_attempts (fst result) = [Some 3] /\
  ~ (forall row, In row (fst result) -> failed_login_attempts row = Some 0).
Proof.
  cbv zeta. split; [reflexivity|]. split; [reflexivity|].
  intros H. specialize (H _ (or_introl eq_refl)). discriminate H.
Qed.

Lemma counter_after_login_and_reset_witness :
  exists user',
    rows0 (select_where (fun r => String.eqb (email r) "alice@clinic.org")
             (fst (login Sample.secret 1000000 (Some "Alice@Clinic.org")
                     (Some "correct horse battery") [Sample.alice]))) = Some user' /\
    failed_login_attempts user' = Some 0 /\
    locked_until user' = None.
Proof.
  apply (proj1 (counter_after_login_and_reset (Ext := Sample.ext) Sample.secret) 1000000
           "Alice@Clinic.org" "correct horse battery" [Sample.alice] Sample.alice);
    reflexivity.
Defined.

Lemma login_wrong_password_witness :
  exists user',
    rows0 (select_where (fun r => String.eqb (email r) "alice@clinic.org")
             (fst (login Sample.secret 1000000 (Some "Alice@Clinic.org")
                     (Some "wrong password") [Sample.alice]))) = Some user' /\
    failed_login_attempts user' = Some 5 /\
    locked_until user' = Some 1900000 /\
    body_field "attemptsRemaining"
      (snd (login Sample.secret 1000000 (Some "Alice@Clinic.org")
              (Some "wrong password") [Sample.alice])) = Some (JNum 0).
Proof.
  destruct (login_wrong_password (Ext := Sample.ext) Sample.secret 1000000 "Alice@Clinic.org" "wrong password"
              [Sample.alice] Sample.alice)
    as [user' [Hrow [_ [_ [_ [_ [_ Hfour]]]]]]]; try reflexivity.
  destruct Hfour as [Hcounter [Hlock Hleft]]; [reflexivity|].
  exists user'. repeat split; assumption.
Defined.

Lemma login_locked_witness :
  fst (login Sample.secret 1000000 (Some "alice@clinic.org")
         (Some "correct horse battery") [Sample.alice_locked]) = [Sample.alice_locked] /\
  status (snd (login Sample.secret 1000000 (Some "alice@clinic.org")
                 (Some "correct horse battery") [Sample.alice_locked])) = 423 /\
  body_field "token"
    (snd (login Sample.secret 1000000 (Some "alice@clinic.org")
            (Some "correct horse battery") [Sample.alice_locked])) = None /\
  body_field "tempToken"
    (snd (login Sample.secret 1000000 (Some "alice@clinic.org")
            (Some "correct horse battery") [Sample.alice_locked])) = None.
Proof.
  apply (login_locked (Ext := Sample.ext) Sample.secret 1000000 2000000 "alice@clinic.org"
           "correct horse battery" [Sample.alice_locked] Sample.alice_locked);
    try reflexivity.
Defined.

Lemma login_mfa_flag_without_secret_witness :
  let r := snd (login Sample.secret 1000000 (Some "dave@clinic.org")
                  (Some "hunter2 hunter2") Sample.full_table) in
  let payload := [("userId", JStr "u4"); ("email", JStr "dave@clinic.org");
                  ("role", JStr "admin"); ("iat", JNum 1000); ("exp", JNum 29800)] in
  status r = 200 /\
  body_field "token" r = Some (JJwt payload "signing-key") /\
  body_field "requiresMFA" r = None /\
  body_field "tempToken" r = None /\
  authenticateToken Sample.secret 2000000 (Some [JStr "Bearer"; JJwt payload "signing-key"])
  = inr payload.
Proof.
  destruct (login_mfa_flag_without_secret (Ext := Sample.ext) Sample.secret 1000000
              "dave@clinic.org" "hunter2 hunter2" Sample.full_table Sample.dave
              eq_refl eq_refl eq_refl eq_refl eq_refl eq_refl eq_refl)
    as [Hstatus [_ [Hno_mfa [Hno_temp [Htoken [_ [_ Haccepted]]]]]]].
  cbv zeta. split; [exact Hstatus|]. split; [exact Htoken|].
  split; [exact Hno_mfa|]. split; [exact Hno_temp|].
  apply (Haccepted (JStr "Bearer") 2000000). reflexivity.
Defined.

(** C6: an expired temporary token is answered by the catch-all of
    verify-mfa.  Carol's token was issued at instant 1000000; with her valid
    code it earns a session token one millisecond before its five minutes
    are over, and 500 "Internal server error" from then on.  A session
    token in its place is answered 401 "Invalid token". *)
Theorem verify_mfa_expired_token_answers_500 :
  let db := Sample.full_table in
  let pending := generateTempToken Sample.secret "u3" 1000000 in
  let session := generateToken Sample.secret "u3" "carol@clinic.org" 1000000 in
  status (snd (verify_mfa Sample.secret 1299999 (Some pending) (Some "otp-JBSWY3DP") db)) = 200 /\
  verify_mfa Sample.secret 1300000 (Some pending) (Some "otp-JBSWY3DP") db
  = (db, res_status_json 500 [("error", JStr "Internal server error")]) /\
  verify_mfa Sample.secret 1300000 (Some pending) (Some "otp-JBSWY3DP") db
  = (db, internal_server_error) /\
  verify_mfa Sample.secret 1001000 (Some session) (Some "otp-JBSWY3DP") db
  = (db, res_status_json 401 [("error", JStr "Invalid token")]).
Proof.
  cbv zeta. split; [reflexivity|].
  assert (Hexpired := verify_mfa_expired (Ext := Sample.ext) Sample.secret "u3"
                        "otp-JBSWY3DP" 1000000 1300000 Sample.full_table eq_refl).
  split; [|split].
  - apply Hexpired. vm_compute. discriminate.
  - apply Hexpired. vm_compute. discriminate.
  - apply (verify_mfa_not_pending (Ext := Sample.ext) Sample.secret _
             [("userId", JStr "u3"); ("email", JStr "carol@clinic.org");
              ("role", JStr "admin"); ("iat", JNum 1000); ("exp", JNum 29800)]);
      reflexivity.
Qed.

Lemma google_verify_capacity_witness :
  google_verify Sample.allowed Sample.defaults 1000000 "9f8e7d" "random" "salt"
    (mkProfile ["Grace@Clinic.org"] None) Sample.full_table
  = (Sample.full_table, done_error "Maximum number of admin accounts reached") /\
  snd (google_verify Sample.allowed Sample.defaults 1000000 "9f8e7d" "random" "salt"
         (mkProfile ["Carol@clinic.org"] (Some "Carol")) Sample.full_table)
  = done_user Sample.carol /\
  map last_login
    (fst (google_verify Sample.allowed Sample.defaults 1000000 "9f8e7d" "random" "salt"
            (mkProfile ["Carol@clinic.org"] (Some "Carol")) Sample.full_table))
  = [None; Some 1000000; None; None; None].
Proof.
  split.
  - apply (proj1 (google_verify_capacity (Ext := Sample.ext) Sample.allowed Sample.defaults
                    1000000 "9f8e7d" "random" "salt" (mkProfile ["Grace@Clinic.org"] None)
                    Sample.full_table "Grace@Clinic.org" eq_refl eq_refl eq_refl)).
    + reflexivity.
    + vm_compute. discriminate.
  - destruct (proj2 (google_verify_capacity (Ext := Sample.ext) Sample.allowed Sample.defaults
                       1000000 "9f8e7d" "random" "salt"
                       (mkProfile ["Carol@clinic.org"] (Some "Carol"))
                       Sample.full_table "Carol@clinic.org" eq_refl eq_refl eq_refl)
                Sample.carol eq_refl) as [Hdone _].
    split; [exact Hdone | reflexivity].
Defined.

Lemma enable_mfa_promotes_or_keeps_witness :
  let user := [("userId", JStr "u5"); ("email", JStr "erin@clinic.org");
               ("role", JStr "admin"); ("iat", JNum 1000); ("exp", JNum 29800)] in
  (exists row',
      rows0 (select_where (id_is (Some (JStr "u5")))
               (fst (enable_mfa 1000000 (Some "otp-KRSXG5A") user Sample.full_table)))
      = Some row' /\
      mfa_enabled row' = true /\
      mfa_secret row' = Some "KRSXG5A" /\
      mfa_secret_temp row' = None) /\
  enable_mfa 1000000 (Some "000000") user Sample.full_table
  = (Sample.full_table, res_status_json 401 [("error", JStr "Invalid MFA code")]).
Proof.
  cbv zeta.
  destruct (enable_mfa_promotes_or_keeps (Ext := Sample.ext) 1000000 "otp-KRSXG5A" "KRSXG5A"
              [("userId", JStr "u5"); ("email", JStr "erin@clinic.org");
               ("role", JStr "admin"); ("iat", JNum 1000); ("exp", JNum 29800)]
              Sample.full_table Sample.erin eq_refl eq_refl eq_refl eq_refl)
    as [Hvalid _].
  destruct (enable_mfa_promotes_or_keeps (Ext := Sample.ext) 1000000 "000000" "KRSXG5A"
              [("userId", JStr "u5"); ("email", JStr "erin@clinic.org");
               ("role", JStr "admin"); ("iat", JNum 1000); ("exp", JNum 29800)]
              Sample.full_table Sample.erin eq_refl eq_refl eq_refl eq_refl)
    as [_ Hinvalid].
  split.
  - destruct (Hvalid eq_refl) as [_ [_ [Hrow _]]]. exact Hrow.
  - exact (Hinvalid eq_refl).
Defined.

(** C9, as stated, fails: the UPDATE of a wrong-password login is not an
    increment of what the store holds.  Two logins for Alice both read
    counter 4; the first UPDATE stores 5; the second stores 5 again, where
    an increment-and-compare run on the store at that point stores 6. *)
Lemma second_update_is_not_an_increment :
  let a := Waiting (Some "alice@clinic.org") (Some "guess one") in
  let b := Waiting (Some "alice@clinic.org") (Some "guess two") in
  let db1 := snd (run_two Sample.secret 1000000 1000100 [false; true; false] a b [Sample.alice]) in
  let db2 := snd (run_two Sample.secret 1000000 1000100 [false; true; false; true] a b
                    [Sample.alice]) in
  map failed_login_attempts db1 = [Some 5] /\
  map failed_login_attempts db2 = [Some 5] /\
  map failed_login_attempts (spec_increment_and_compare 1000100 "u1" db1) = [Some 6] /\
  db2 <> spec_increment_and_compare 1000100 "u1" db1.
Proof.
  cbv zeta. repeat split; try reflexivity.
  intros H. apply (f_equal (map failed_login_attempts)) in H.
  vm_compute in H. discriminate H.
Qed.

Lemma two_wrong_logins_from_four_witness :
  exists db2 row2,
    snd (run_two Sample.secret 1000000 1000100 [false; true; false; true]
           (Waiting (Some "alice@clinic.org") (Some "guess one"))
           (Waiting (Some "alice@clinic.org") (Some "guess two")) [Sample.alice]) = db2 /\
    rows0 (select_where (fun r => String.eqb (email r) "alice@clinic.org") db2) = Some row2 /\
    failed_login_attempts row2 = Some 5 /\
    locked_until row2 = Some 1900100.
Proof.
  destruct (two_wrong_logins_from_four (Ext := Sample.ext) Sample.secret 1000000 1000100
              "alice@clinic.org" "guess one" "guess two" [Sample.alice] Sample.alice
              false false eq_refl eq_refl eq_refl eq_refl eq_refl eq_refl eq_refl
              eq_refl eq_refl)
    as [_ [_ [db2 [row2 [Hrun [Hrow [Hcounter Hlock]]]]]]].
  exists db2, row2. split.
  - cbn [negb] in Hrun. rewrite Hrun. reflexivity.
  - repeat split; assumption.
Defined.

(** ** The further properties on the concrete deployment *)

Lemma forgot_password_same_answer_witness :
  snd (forgot_password 1000000 "4f1a" (Some "mallory@clinic.org") Sample.full_table)
  = snd (forgot_password 1000000 "9c2e" (Some "alice@clinic.org") Sample.full_table).
Proof.
  apply (forgot_password_same_answer (Ext := Sample.ext) 1000000 1000000 "4f1a" "9c2e"
           "mallory@clinic.org" "alice@clinic.org" Sample.full_table Sample.full_table);
    reflexivity.
Defined.

Lemma forgot_then_reset_witness :
  snd (reset_password 2000000 "salt" (Some "r3s3t") (Some "a new long password")
         (fst (forgot_password 1000000 "r3s3t" (Some "Alice@clinic.org") [Sample.alice])))
  = res_json [("message", JStr "Password reset successful")].
Proof.
  apply (forgot_then_reset (Ext := Sample.ext) 1000000 2000000 "r3s3t" "salt"
           "Alice@clinic.org" "a new long password" [Sample.alice] Sample.alice);
    try reflexivity.
  - intros r [<-|[]]. discriminate.
  - vm_compute. discriminate.
Defined.

Lemma reset_token_single_use_witness :
  let db' := fst (reset_password 1000000 "salt" (Some "r3s3t") (Some "a new long password")
                    [Sample.alice_resetting]) in
  reset_password 1000001 "pepper" (Some "r3s3t") (Some "another long password") db'
  = (db', res_status_json 401 [("error", JStr "Invalid or expired reset token")]).
Proof.
  apply (reset_token_single_use (Ext := Sample.ext) 1000000 1000001 "r3s3t" "salt" "pepper"
           "a new long password" "another long password" [Sample.alice_resetting]
           Sample.alice_resetting);
    try reflexivity.
  - vm_compute. discriminate.
  - vm_compute. discriminate.
  - intros r [<-|[]] _. reflexivity.
Defined.

Lemma reset_token_expires_witness :
  let db1 := fst (forgot_password 1000000 "r3s3t" (Some "alice@clinic.org") [Sample.alice]) in
  reset_password 4600000 "salt" (Some "r3s3t") (Some "a new long password") db1
  = (db1, res_status_json 401 [("error", JStr "Invalid or expired reset token")]).
Proof.
  apply (reset_token_expires (Ext := Sample.ext) 1000000 4600000 "r3s3t" "salt"
           "alice@clinic.org" "a new long password" [Sample.alice] Sample.alice);
    try reflexivity.
  - intros r [<-|[]]. discriminate.
  - vm_compute. discriminate.
Defined.

Lemma only_success_writes_witness :
  fst (reset_password 1000000 "salt" (Some "r3s3t") (Some "too short")
         [Sample.alice_resetting]) = [Sample.alice_resetting] /\
  fst (disable_mfa (Some "guess") [("userId", JStr "u3")] Sample.full_table)
  = Sample.full_table.
Proof.
  destruct (only_success_writes (Ext := Sample.ext) Sample.secret)
    as [Hreset [_ [_ [Hdisable _]]]].
  split.
  - apply Hreset. vm_compute. discriminate.
  - apply Hdisable. vm_compute. discriminate.
Defined.

Lemma five_wrong_passwords_lock_witness :
  let db' := logins_in_a_row Sample.secret [1000000; 1000100; 1000200; 1000300; 1000400]
               (Some "frank@clinic.org") (Some "guess") Sample.full_table in
  fst (login Sample.secret 1500000 (Some "frank@clinic.org") (Some "not a password") db') = db' /\
  status (snd (login Sample.secret 1500000 (Some "frank@clinic.org") (Some "not a password") db'))
  = 423.
Proof.
  destruct (five_wrong_passwords_lock (Ext := Sample.ext) Sample.secret
              [1000000; 1000100; 1000200; 1000300] 1000400 "frank@clinic.org" "guess"
              Sample.full_table Sample.frank eq_refl eq_refl eq_refl eq_refl eq_refl eq_refl)
    as [user' [_ [_ [_ Hlocked]]]].
  apply (Hlocked 1500000 "not a password"); reflexivity.
Defined.

Lemma login_touches_one_account_witness :
  nth_error (fst (login Sample.secret 1000000 (Some "frank@clinic.org") (Some "guess")
                    Sample.full_table)) 1 = Some Sample.carol.
Proof.
  apply (login_touches_one_account (Ext := Sample.ext) Sample.secret 1000000
           (Some "frank@clinic.org") (Some "guess") Sample.full_table 1 Sample.carol).
  - reflexivity.
  - intros e' user [= <-] Hsel. vm_compute in Hsel.
    injection Hsel as <-. discriminate.
Defined.

Lemma authenticateToken_sound_witness :
  status (res_status_json 403 [("error", JStr "Invalid or expired token")]) = 401 \/
  status (res_status_json 403 [("error", JStr "Invalid or expired token")]) = 403.
Proof.
  apply (proj2 (authenticateToken_sound Sample.secret 1001000
                  (Some [JStr "Bearer";
                         generateToken "another-key" "u3" "carol@clinic.org" 1000000]))).
  reflexivity.
Defined.

Lemma login_then_verify_mfa_witness :
  let db1 := fst (login Sample.secret 1000000 (Some "carol@clinic.org")
                    (Some "tr0ub4dor and three") Sample.full_table) in
  handleMFAVerify
    (snd (verify_mfa Sample.secret 1100000
            (Some (generateTempToken Sample.secret "u3" 1000000)) (Some "otp-JBSWY3DP") db1))
  = login_success (Some (generateToken Sample.secret "u3" "carol@clinic.org" 1100000)).
Proof.
  destruct (login_then_verify_mfa (Ext := Sample.ext) Sample.secret 1000000 1100000 2000000
              "carol@clinic.org" "tr0ub4dor and three" "JBSWY3DP" "otp-JBSWY3DP"
              Sample.full_table Sample.carol (JStr "Bearer")
              eq_refl eq_refl eq_refl eq_refl eq_refl eq_refl eq_refl eq_refl eq_refl
              eq_refl eq_refl eq_refl eq_refl)
    as [_ [_ [Hpage _]]].
  exact Hpage.
Defined.

Lemma setup_then_enable_mfa_witness :
  let session := [("userId", JStr "u6"); ("email", JStr "frank@clinic.org");
                  ("role", JStr "admin"); ("iat", JNum 1000); ("exp", JNum 29800)] in
  snd (login Sample.secret 1200000 (Some "frank@clinic.org") (Some "not a password")
         (fst (enable_mfa 1100000 (Some "otp-MFRGGZDF") session
                 (fst (setup_mfa "MFRGGZDF" "data:image/png;base64,AAAA" session
                         Sample.full_table)))))
  = res_json [("requiresMFA", JBool true);
              ("tempToken", generateTempToken Sample.secret "u6" 1200000)].
Proof.
  apply (setup_then_enable_mfa (Ext := Sample.ext) Sample.secret 1100000 1200000
           "MFRGGZDF" "data:image/png;base64,AAAA" "otp-MFRGGZDF" "frank@clinic.org"
           "not a password"
           [("userId", JStr "u6"); ("email", JStr "frank@clinic.org");
            ("role", JStr "admin"); ("iat", JNum 1000); ("exp", JNum 29800)]
           Sample.full_table Sample.frank);
    reflexivity.
Defined.

Lemma disable_mfa_needs_password_witness :
  disable_mfa (Some "guess") [("userId", JStr "u3")] Sample.full_table
  = (Sample.full_table, res_status_json 401 [("error", JStr "Invalid password")]) /\
  snd (login Sample.secret 1000000 (Some "carol@clinic.org") (Some "tr0ub4dor and three")
         (fst (disable_mfa (Some "tr0ub4dor and three") [("userId", JStr "u3")]
                 Sample.full_table)))
  = res_json [("token", generateToken Sample.secret "u3" "carol@clinic.org" 1000000);
              ("user", user_summary Sample.carol)].
Proof.
  destruct (disable_mfa_needs_password (Ext := Sample.ext) Sample.secret 1000000
              "carol@clinic.org" "tr0ub4dor and three" "guess" [("userId", JStr "u3")]
              Sample.full_table Sample.carol
              eq_refl eq_refl eq_refl eq_refl eq_refl eq_refl eq_refl eq_refl)
    as [Hwrong [_ [_ Hlogin]]].
  split; [exact Hwrong | exact Hlogin].
Defined.

Lemma page_same_message_unknown_or_wrong_witness :
  handleLogin (snd (login Sample.secret 1000000 (Some "mallory@clinic.org") (Some "guess")
                      Sample.full_table))
  = handleLogin (snd (login Sample.secret 1000000 (Some "frank@clinic.org") (Some "guess")
                        Sample.full_table)).
Proof.
  destruct (page_same_message_unknown_or_wrong (Ext := Sample.ext) Sample.secret
              1000000 1000000 "mallory@clinic.org" "guess" "frank@clinic.org" "guess"
              Sample.full_table Sample.full_table Sample.frank
              eq_refl eq_refl eq_refl eq_refl eq_refl eq_refl eq_refl eq_refl)
    as [Hunknown Hwrong].
  rewrite Hunknown, Hwrong. reflexivity.
Defined.

Lemma interleaved_logins_lose_a_count_witness :
  exists a b db2 row2,
    run_two Sample.secret 1000000 1000100 [false; true; false; true]
      (Waiting (Some "alice@clinic.org") (Some "guess one"))
      (Waiting (Some "alice@clinic.org") (Some "guess two"))
      [Sample.alice_resetting] = (a, b, db2) /\
    rows0 (select_where (fun r => String.eqb (email r) "alice@clinic.org") db2) = Some row2 /\
    failed_login_attempts row2 = Some 4 /\
    locked_until row2 = None.
Proof.
  exact (proj2 (interleaved_logins_lose_a_count (Ext := Sample.ext) Sample.secret
                  1000000 1000100 "alice@clinic.org" "guess one" "guess two"
                  [Sample.alice_resetting] Sample.alice_resetting
                  eq_refl eq_refl eq_refl eq_refl eq_refl eq_refl eq_refl eq_refl)).
Defined.

Lemma whitelist_not_configured_iff_unset_witness :
  snd (google_verify None Sample.defaults 1000000 "9f8e7d" "random" "salt"
         (mkProfile ["grace@clinic.org"] None) Sample.full_table)
  = done_error "Google OAuth whitelist not configured" /\
  google_verify (Some "") Sample.defaults 1000000 "9f8e7d" "random" "salt"
    (mkProfile ["grace@clinic.org"] None) Sample.full_table
  = (Sample.full_table,
     done_error "This Google account is not authorized to access MediFlow AI").
Proof.
  split.
  - apply (proj1 (whitelist_not_configured_iff_unset (Ext := Sample.ext) None Sample.defaults
                    1000000 "9f8e7d" "random" "salt" (mkProfile ["grace@clinic.org"] None)
                    Sample.full_table "grace@clinic.org" eq_refl eq_refl)).
    reflexivity.
  - apply (proj2 (whitelist_not_configured_iff_unset (Ext := Sample.ext) (Some "")
                    Sample.defaults 1000000 "9f8e7d" "random" "salt"
                    (mkProfile ["grace@clinic.org"] None)
                    Sample.full_table "grace@clinic.org" eq_refl eq_refl)).
    + discriminate.
    + reflexivity.
Defined.

Lemma google_creates_account_once_witness :
  exists user,
    google_verify Sample.allowed Sample.defaults 1000000 "9f8e7d" "random" "salt"
      (mkProfile ["Grace@Clinic.org"] None) [Sample.alice]
    = ([Sample.alice; user], done_user user) /\
    email user = "grace@clinic.org" /\
    name user = "Grace" /\
    length (fst (google_verify Sample.allowed Sample.defaults 2000000 "11aa22" "other" "salt"
                   (mkProfile ["Grace@Clinic.org"] None) [Sample.alice; user])) = 2%nat.
Proof.
  destruct (google_creates_account_once (Ext := Sample.ext) Sample.allowed Sample.defaults
              1000000 2000000 "9f8e7d" "random" "salt" "11aa22" "other" "salt"
              (mkProfile ["Grace@Clinic.org"] None) [Sample.alice] "Grace@Clinic.org"
              eq_refl eq_refl eq_refl eq_refl eq_refl)
    as [user [Hrun [_ [Hemail [Hname [_ [_ [_ [_ [_ Hlen]]]]]]]]]].
  exists user. repeat split; assumption.
Defined.

Lemma google_verify_keeps_credentials_witness :
  exists r',
    nth_error (fst (google_verify Sample.allowed Sample.defaults 1000000 "9f8e7d" "random"
                      "salt" (mkProfile ["carol@clinic.org"] None) Sample.full_table)) 1
    = Some r' /\
    password_hash r' = "bcrypt$tr0ub4dor and three" /\
    mfa_secret r' = Some "JBSWY3DP".
Proof.
  destruct (google_verify_keeps_credentials (Ext := Sample.ext) Sample.allowed Sample.defaults
              1000000 "9f8e7d" "random" "salt" (mkProfile ["carol@clinic.org"] None)
              Sample.full_table 1 Sample.carol eq_refl)
    as [r' [Hn [_ [_ [Hhash [_ [Hsecret _]]]]]]].
  exists r'. repeat split; assumption.
Defined.

Lemma federation_refusals_reach_the_page_witness :
  handleOAuthRedirect
    (google_callback Sample.secret (Some "client-id") (Some "client-secret") 1000000
       (snd (google_verify Sample.allowed Sample.defaults 1000000 "9f8e7d" "random" "salt"
               (mkProfile ["mallory@clinic.org"] None) Sample.full_table)))
  = show_error (JStr "This Google account is not authorized. Only whitelisted accounts can sign in.") /\
  handleOAuthRedirect
    (google_callback Sample.secret (Some "client-id") (Some "client-secret") 1000000
       (snd (google_verify Sample.allowed Sample.defaults 1000000 "9f8e7d" "random" "salt"
               (mkProfile ["grace@clinic.org"] None) Sample.full_table)))
  = show_error (JStr "Maximum number of admin accounts reached. Contact administrator.").
Proof.
  split.
  - destruct (federation_refusals_reach_the_page (Ext := Sample.ext) Sample.secret
                Sample.allowed Sample.defaults (Some "client-id") (Some "client-secret")
                1000000 "9f8e7d" "random" "salt" (mkProfile ["mallory@clinic.org"] None)
                Sample.full_table eq_refl eq_refl) as [_ Hcases].
    destruct (Hcases "mallory@clinic.org" eq_refl eq_refl) as [_ [Hnot _]].
    apply Hnot; [discriminate | reflexivity].
  - destruct (federation_refusals_reach_the_page (Ext := Sample.ext) Sample.secret
                Sample.allowed Sample.defaults (Some "client-id") (Some "client-secret")
                1000000 "9f8e7d" "random" "salt" (mkProfile ["grace@clinic.org"] None)
                Sample.full_table eq_refl eq_refl) as [_ Hcases].
    destruct (Hcases "grace@clinic.org" eq_refl eq_refl) as [_ [_ Hfull]].
    apply Hfull; [reflexivity | reflexivity | vm_compute; discriminate].
Defined.

Lemma federation_success_is_a_session_witness :
  exists token payload,
    handleOAuthRedirect
      (google_callback Sample.secret (Some "client-id") (Some "client-secret") 1000000
         (done_user Sample.carol)) = login_success (Some token) /\
    authenticateToken Sample.secret 2000000 (Some [JStr "Bearer"; token]) = inr payload /\
    field "userId" payload = Some (JStr "u3").
Proof.
  destruct (federation_success_is_a_session Sample.secret (Some "client-id")
              (Some "client-secret") 1000000 2000000 Sample.carol (JStr "Bearer")
              eq_refl eq_refl eq_refl)
    as [token [payload [Hpage [Hauth [Huser _]]]]].
  exists token, payload. repeat split; assumption.
Defined.

Lemma google_cap_alone_not_overlapping_witness :
  let whitelist := Some "grace@clinic.org,heidi@clinic.org" in
  let grace := mkFederation 1000000 "9f8e7d" "random" "salt"
                 (mkProfile ["grace@clinic.org"] (Some "Grace")) in
  let heidi := mkFederation 1000050 "11aa22" "other" "pepper"
                 (mkProfile ["Heidi@clinic.org"] None) in
  let db := [Sample.alice; Sample.carol; Sample.dave; Sample.erin] in
  exists ua ub db',
    run_two_google whitelist Sample.defaults grace heidi
      [false; true; false; true; false; true] Arrived Arrived db
    = (Finished (done_user ua), Finished (done_user ub), db') /\
    email ua = "grace@clinic.org" /\
    email ub = "heidi@clinic.org" /\
    count_users db' = 6.
Proof.
  cbv zeta.
  destruct (proj2 (google_cap_alone_not_overlapping (Ext := Sample.ext)
                     (Some "grace@clinic.org,heidi@clinic.org") Sample.defaults)
              (mkFederation 1000000 "9f8e7d" "random" "salt"
                 (mkProfile ["grace@clinic.org"] (Some "Grace")))
              (mkFederation 1000050 "11aa22" "other" "pepper"
                 (mkProfile ["Heidi@clinic.org"] None))
              [Sample.alice; Sample.carol; Sample.dave; Sample.erin]
              "grace@clinic.org" "Heidi@clinic.org" false false false
              eq_refl eq_refl eq_refl eq_refl eq_refl eq_refl eq_refl eq_refl)
    as [ua [ub [db' [Hrun [Hea [Heb [_ [_ [_ Hsix]]]]]]]]].
  - vm_compute. discriminate.
  - discriminate.
  - reflexivity.
  - exists ua, ub, db'. split; [exact Hrun|]. split; [exact Hea|]. split; [exact Heb|].
    apply Hsix. reflexivity.
Defined.
